(** * api-scenario: the step controller (pkg/controller/step_ctrl.go)

    A shallow embedding of the step engine: the dispatcher [Run], the
    request builder [convertAndPatchToHttpRequest] with its [patch]
    helper, and the response extractor [attachVariablesToContext].

    Go values are embedded as follows.
    - [int], [int64] and [time.Duration] are [Z], with the 64-bit
      wrap-around written out ([Time.wrap64]).
    - [string] is [string]; [[]byte] is the same list of 8-bit characters.
    - [map[string]T] is [gmap string T]; a [range] over a map visits the
      entries in an order chosen by the runtime, which is a parameter of
      the development ([range]).
    - [error] is the message of the error ([error := string]); a nil error
      is [None].
    - [interface{}] holding a decoded JSON document is the tree [iface].
    - The process-wide variable store, the clock and the calls made to the
      collaborators are the components of an explicit [World] that every
      effectful function threads through.
    Calls to the logger (logrus, the [Print] methods) have no effect on any
    of the above and are left out. *)

From stdpp Require Import gmap strings list fin_maps pretty.
From Stdlib Require Import ZArith Ascii Floats.SpecFloat.

Open Scope Z_scope.

(** Go's [error], seen through its [Error()] message. *)
Definition error := string.

(** ** Package time: the part of [Duration] and [Time] the controller uses *)
Module Time.

(** [type Duration int64], a count of nanoseconds. *)
Definition Duration := Z.

Definition minDuration : Duration := - 2 ^ 63.
Definition maxDuration : Duration := 2 ^ 63 - 1.
Definition Millisecond : Duration := 1000000.
Definition Second : Duration := 1000000000.

(** Two's complement wrap-around of a mathematical integer to [int64]. *)
Definition wrap64 (z : Z) : Z := (z + 2 ^ 63) mod 2 ^ 64 - 2 ^ 63.

(** The conversion [uint64(x)] of an [int64]. *)
Definition uint64 (x : Z) : Z := x mod 2 ^ 64.

(** [lessThanHalf x y]: [uint64(x)+uint64(x) < uint64(y)]. *)
Definition lessThanHalf (x y : Duration) : bool :=
  ((uint64 x + uint64 x) mod 2 ^ 64) <? uint64 y.

(** [func (d Duration) Round(m Duration) Duration]: the nearest multiple
    of [m], halfway values away from zero, saturating when the result
    does not fit. [%] is [Z.rem], the additions wrap. *)
Definition Round (d m : Duration) : Duration :=
  if m <=? 0 then d
  else
    let r := Z.rem d m in
    if d <? 0 then
      let r := wrap64 (- r) in
      if lessThanHalf r m then wrap64 (d + r)
      else
        let d1 := wrap64 (wrap64 (d - m) + r) in
        if d1 <? d then d1 else minDuration
    else
      if lessThanHalf r m then wrap64 (d - r)
      else
        let d1 := wrap64 (wrap64 (d + m) - r) in
        if d <? d1 then d1 else maxDuration.

(** [t.Sub(u)] on two monotonic clock readings: the difference,
    saturating at the bounds of [Duration]. *)
Definition Sub (t u : Z) : Duration :=
  let d := wrap64 (t - u) in
  if (d <? 0) && (u <? t) then maxDuration
  else if (0 <? d) && (t <? u) then minDuration
  else d.

(** [int64] division truncates toward zero. *)
Definition div (a b : Z) : Z := wrap64 (Z.quot a b).

End Time.

(** A count of nanoseconds in whole milliseconds, to the nearest, halfway
    values away from zero: the mathematical value, on unbounded integers,
    against which the extraction of the response time is stated. *)
Definition round_to_ms (d : Z) : Z :=
  Z.sgn d * ((Z.abs d + 500000) / 1000000).

(** [strconv.FormatInt(i, 10)] and [fmt.Sprintf("%v", i)] for an integer:
    the decimal numeral, with a leading minus sign when negative. *)
Definition FormatInt (i : Z) : string := pretty i.

(** [strconv.FormatBool]. *)
Definition FormatBool (b : bool) : string := if b then "true" else "false".

(** ** Decoded JSON held in an [interface{}] *)

(** [float64] is an IEEE 754 binary64 value. *)
Definition float64 := spec_float.

#[warnings="-register-all"]
Inductive iface : Type :=
| INil
| IString (s : string)
| IBool (b : bool)
| IFloat64 (f : float64)
| ISlice (l : list iface)
| IMap (m : list (string * iface)).

(** What [%s] prints for [reflect.TypeOf(v)]. The type of a nil interface
    is the nil [reflect.Type], for which the verb prints its bad-verb
    marker. *)
Definition TypeOf_String (v : iface) : string :=
  match v with
  | INil => "%!s(<nil>)"
  | IString _ => "string"
  | IBool _ => "bool"
  | IFloat64 _ => "float64"
  | ISlice _ => "[]interface {}"
  | IMap _ => "map[string]interface {}"
  end.

(** ** Package rest (github.com/sendgrid/rest) *)
Module Rest.

Record Request := mkRequest {
  Request_Method : string;
  Request_BaseURL : string;
  Request_Headers : gmap string string;
  Request_QueryParams : gmap string string;
  Request_Body : string
}.

(** [rest.Request{}] *)
Definition Request_zero : Request :=
  mkRequest "" "" ∅ ∅ "".

Record Response := mkResponse {
  Response_StatusCode : Z;
  Response_Body : string;
  Response_Headers : gmap string (list string)
}.

End Rest.

(** ** Package model: the structures the controller reads and builds *)
Module Model.

(** [StepType] is a string-based enumeration (it is printed with [%s]).
    The statements below use only that its two constants differ and that
    neither is the empty string, the zero value of the type. *)
Definition StepType := string.
Definition Pause : StepType := "pause".
Definition RequestStep : StepType := "request".

Inductive Source :=
| ResponseTime
| ResponseStatus
| ResponseHeader
| ResponseJson
| SourceOther (s : string).

Record Variable_ := mkVariable {
  Variable_Name : string;
  Variable_Source : Source;
  Variable_Property : string
}.

Record Response := mkResponse {
  Response_StatusCode : Z;
  Response_Header : gmap string (list string);
  Response_Body : iface;
  Response_TimeElapsed : Time.Duration
}.

(** [model.Response{}] *)
Definition Response_zero : Response := mkResponse 0 ∅ INil 0.

Inductive ResultVariableType := Created | Used.

Record ResultVariable := mkResultVariable {
  ResultVariable_Key : string;
  ResultVariable_NewValue : string;
  ResultVariable_Err : option error;
  ResultVariable_Type : ResultVariableType
}.

Record Step {Assertion : Type} := mkStep {
  Step_StepType : StepType;
  Step_Duration : Z;
  Step_Method : string;
  Step_URL : string;
  Step_Headers : gmap string (list string);
  Step_Body : string;
  Step_Assertions : list Assertion;
  Step_Variables : list Variable_
}.
Arguments Step : clear implicits.

Record ResultStep {ResultAssertion : Type} := mkResultStep {
  ResultStep_StepType : StepType;
  ResultStep_Request : Rest.Request;
  ResultStep_Response : Response;
  ResultStep_StepTime : Time.Duration;
  ResultStep_Assertion : list ResultAssertion;
  ResultStep_VariableApplied : list ResultVariable;
  ResultStep_VariableCreated : list ResultVariable
}.
Arguments ResultStep : clear implicits.

(** [model.ResultStep{}] *)
Definition ResultStep_zero {ResultAssertion : Type} : ResultStep ResultAssertion :=
  mkResultStep ResultAssertion "" Rest.Request_zero Response_zero 0 [] [] [].

End Model.

(** ** The world the controller runs in *)

(** The calls that leave the controller, in the order they are made. *)
Inductive Event {Assertion : Type} :=
| EvSleep (d : Time.Duration)
| EvSend (req : Rest.Request)
| EvAssert (assertion : Assertion) (response : Model.Response)
| EvAdd (key value : string).
Arguments Event : clear implicits.

(** [store] is the table behind [context.GetContext()], [ticks] counts the
    readings of the clock taken so far, [trace] records the calls made. *)
Record World {Assertion : Type} := mkWorld {
  store : gmap string string;
  ticks : nat;
  trace : list (Event Assertion)
}.
Arguments World : clear implicits.

(** What a call does: it returns, or the goroutine panics. *)
Inductive Outcome (A W : Type) :=
| Returned (a : A) (w : W)
| Panicked (w : W).
Arguments Returned {A W} a w.
Arguments Panicked {A W} w.

(** ** Collaborators

    Code that the controller calls and that lives outside this file. *)
Record Collaborators {Assertion ResultAssertion : Type} := mkCollaborators {
  (** [context.GetContext().Patch]: reads the store, returns the patched
      string. *)
  Patch : gmap string string -> string -> string;
  (** [step.ExtractUrl()]: the base URL and the query parameters, or an
      error. *)
  ExtractUrl : Model.Step Assertion -> (string * gmap string string) + error;
  (** [viper.GetStringMapString("headers")]: the headers given on the
      command line. *)
  configHeaders : gmap string string;
  (** [sc.client.Send]: a response pointer and an error, either of which
      may be nil. What it answers may depend on what happened before. *)
  Send : World Assertion -> Rest.Request -> option Rest.Response * option error;
  (** [model.NewResponse]. *)
  NewResponse : Rest.Response -> Time.Duration -> Model.Response * option error;
  (** [sc.assertionCtrl.Assert]. *)
  Assert : World Assertion -> Assertion -> Model.Response -> ResultAssertion;
  (** [util.JsonConvertKeyName]. *)
  JsonConvertKeyName : string -> list string;
  (** [jsonq.NewQuery(body).Interface(path...)]: the value found, or an
      error, in which case the value returned with it is nil. *)
  Interface : iface -> list string -> error + iface;
  (** [fmt.Sprintf("%g", f)]. *)
  Sprintf_g : float64 -> string;
  (** The successive readings of the monotonic clock. *)
  wall : nat -> Z;
  (** The order in which a [range] loop visits the entries of a map. *)
  range : forall A : Type, gmap string A -> list (string * A)
}.
Arguments Collaborators : clear implicits.
Arguments range {Assertion ResultAssertion} c {A} m.

Section Controller.

Context {Assertion ResultAssertion : Type}.
Variable env : Collaborators Assertion ResultAssertion.

Abbreviation World := (World Assertion).
Abbreviation Step := (Model.Step Assertion).
Abbreviation ResultStep := (Model.ResultStep ResultAssertion).

(** *** The variable store and the clock *)

(** [context.GetContext().Add(key, value)] *)
Definition Add (key value : string) (w : World) : World :=
  mkWorld Assertion (<[key := value]> (store w)) (ticks w)
          (trace w ++ [EvAdd key value]).

Definition log (e : Event Assertion) (w : World) : World :=
  mkWorld Assertion (store w) (ticks w) (trace w ++ [e]).

(** [time.Now()] *)
Definition Now (w : World) : Z * World :=
  (wall env (ticks w), mkWorld Assertion (store w) (S (ticks w)) (trace w)).

(** *** attachVariablesToContext *)

Definition created (key value : string) : Model.ResultVariable :=
  Model.mkResultVariable key value None Model.Created.

Definition failed (key : string) (err : error) : Model.ResultVariable :=
  Model.mkResultVariable key "" (Some err) Model.Created.

(** The type switch on the extracted value. *)
Definition exportValue (name : string) (extractedKey : iface)
    (w : World) (result : list Model.ResultVariable)
  : World * list Model.ResultVariable :=
  match extractedKey with
  | IString value =>
      (Add name value w, result ++ [created name value])
  | IBool value =>
      let castValue := FormatBool value in
      (Add name castValue w, result ++ [created name castValue])
  | IFloat64 value =>
      let castValue := Sprintf_g env value in
      (Add name castValue w, result ++ [created name castValue])
  | _ =>
      (w, result ++ [failed name
         ("type " +:+ TypeOf_String extractedKey
            +:+ " not valid type to export as a variable")])
  end.

(** The body of the loop over the declarations. *)
Definition attachVariable (response : Model.Response)
    (st : World * list Model.ResultVariable) (variable : Model.Variable_)
  : World * list Model.ResultVariable :=
  let '(w, result) := st in
  if (String.length (Model.Variable_Name variable) =? 0)%nat then (w, result)
  else
    let name := Model.Variable_Name variable in
    match Model.Variable_Source variable with
    | Model.ResponseTime =>
        let value :=
          FormatInt (Time.div (Time.Round (Model.Response_TimeElapsed response)
                                          Time.Millisecond)
                              Time.Millisecond) in
        (Add name value w, result ++ [created name value])
    | Model.ResponseStatus =>
        let value := FormatInt (Model.Response_StatusCode response) in
        (Add name value w, result ++ [created name value])
    | Model.ResponseHeader =>
        match Model.Response_Header response !! Model.Variable_Property variable with
        | Some (h0 :: _) =>
            (Add name h0 w, result ++ [created name h0])
        | _ => (w, result)
        end
    | Model.ResponseJson =>
        let jqPath := JsonConvertKeyName env (Model.Variable_Property variable) in
        match Interface env (Model.Response_Body response) jqPath with
        | inl err =>
            exportValue name INil w (result ++ [failed name err])
        | inr extractedKey =>
            exportValue name extractedKey w result
        end
    | Model.SourceOther _ => (w, result)
    end.

Definition attachVariablesToContext (response : Model.Response)
    (vars : list Model.Variable_) (w : World)
  : World * list Model.ResultVariable :=
  foldl (attachVariable response) (w, []) vars.

(** *** patch and convertAndPatchToHttpRequest *)

Definition used (name patchedValue : string) : Model.ResultVariable :=
  Model.mkResultVariable name patchedValue None Model.Used.

Definition patch (w : World) (initial name : string)
    (variables : list Model.ResultVariable)
  : string * list Model.ResultVariable :=
  let initialValue := initial in
  let patchedValue := Patch env (store w) initial in
  if bool_decide (initialValue ≠ patchedValue)
  then (patchedValue, variables ++ [used name patchedValue])
  else (patchedValue, variables).

(** [for key, value := range step.Headers]: the first value of every
    header that has one. *)
Definition flattenHeaders (hs : gmap string (list string)) : gmap string string :=
  foldl (fun headers kv =>
           match kv.2 with
           | v0 :: _ => <[kv.1 := v0]> headers
           | [] => headers
           end) ∅ (range env hs).

(** [for key, value := range viper.GetStringMapString("headers")] *)
Definition overrideHeaders (w : World) (headers : gmap string string)
  : gmap string string :=
  foldl (fun headers kv => <[kv.1 := Patch env (store w) kv.2]> headers)
        headers (range env (configHeaders env)).

(** [for key, value := range m { m[key] = patch(value, label(key), &result) }] *)
Definition patchMap (w : World) (label : string -> string)
    (m : gmap string string) (result : list Model.ResultVariable)
  : gmap string string * list Model.ResultVariable :=
  foldl (fun st kv =>
           let '(patched, result') := patch w kv.2 (label kv.1) st.2 in
           (<[kv.1 := patched]> st.1, result'))
        (m, result) (range env m).

Definition paramLabel (key : string) : string := "params[" +:+ key +:+ "]".
Definition headerLabel (key : string) : string := "headers." +:+ key.

Definition convertAndPatchToHttpRequest (step : Step) (w : World)
  : Rest.Request * list Model.ResultVariable * option error :=
  let result : list Model.ResultVariable := [] in
  match ExtractUrl env step with
  | inr err => (Rest.Request_zero, result, Some err)
  | inl (baseUrl, queryParams) =>
      let headers := flattenHeaders (Model.Step_Headers step) in
      let headers := overrideHeaders w headers in
      let '(bodyPatched, result) := patch w (Model.Step_Body step) "body" result in
      let '(urlPatched, result) := patch w baseUrl "URL" result in
      let '(queryParams, result) := patchMap w paramLabel queryParams result in
      let '(headers, result) := patchMap w headerLabel headers result in
      (Rest.mkRequest (Model.Step_Method step) urlPatched headers queryParams
                      bodyPatched,
       result, None)
  end.

(** *** assertResponse *)

Definition assertOne (response : Model.Response)
    (st : World * list ResultAssertion) (assertion : Assertion)
  : World * list ResultAssertion :=
  let '(w, result) := st in
  let assertionResult := Assert env w assertion response in
  (log (EvAssert assertion response) w, result ++ [assertionResult]).

Definition assertResponse (response : Model.Response)
    (assertions : list Assertion) (w : World)
  : World * list ResultAssertion :=
  foldl (assertOne response) (w, []) assertions.

(** *** pause, request and Run *)

Definition pause (numberOfSecond : Z) (w : World)
  : Outcome (ResultStep * option error) World :=
  let '(start, w) := Now w in
  let duration := Time.wrap64 (numberOfSecond * Time.Second) in
  let w := log (EvSleep duration) w in
  let '(stop, w) := Now w in
  Returned
    (Model.mkResultStep ResultAssertion Model.Pause Rest.Request_zero
       Model.Response_zero (Time.Sub stop start) [] [] [], None) w.

Definition request (step : Step) (w : World)
  : Outcome (ResultStep * option error) World :=
  let '(req, variables, err) := convertAndPatchToHttpRequest step w in
  match err with
  | Some _ =>
      Returned (Model.ResultStep_zero, Some "impossible to convert the request"%string) w
  | None =>
      let result stepTime response assertion variableCreated :=
        Model.mkResultStep ResultAssertion Model.RequestStep req response
          stepTime assertion variables variableCreated in
      let '(start, w) := Now w in
      let '(res, err) := Send env w req in
      let w := log (EvSend req) w in
      let '(stop, w) := Now w in
      let elapsed := Time.Sub stop start in
      match err with
      | Some e => Returned (result elapsed Model.Response_zero [] [], Some e) w
      | None =>
          match res with
          | None => Panicked w
          | Some res =>
              let '(response, err) := NewResponse env res elapsed in
              match err with
              | Some e =>
                  Returned (result elapsed Model.Response_zero [] [], Some e) w
              | None =>
                  let '(w, assertion) :=
                    assertResponse response (Model.Step_Assertions step) w in
                  let '(w, variableCreated) :=
                    attachVariablesToContext response (Model.Step_Variables step) w in
                  Returned (result elapsed response assertion variableCreated, None) w
              end
          end
      end
  end.

Definition Run (step : Step) (w : World)
  : Outcome (ResultStep * option error) World :=
  if bool_decide (Model.Step_StepType step = Model.Pause) then
    pause (Model.Step_Duration step) w
  else if bool_decide (Model.Step_StepType step = Model.RequestStep) then
    request step w
  else
    Returned (Model.ResultStep_zero,
              Some (Model.Step_StepType step +:+ " is an invalid step_type")) w.

(** *** Views of a run, used to state what [Run] does *)

(** The world once the request has been sent: the clock was read before
    and after the call, and the call is on the trace. *)
Definition sent (req : Rest.Request) (w : World) : World :=
  mkWorld Assertion (store w) (S (S (ticks w))) (trace w ++ [EvSend req]).

(** The time measured around the call of [Send]. *)
Definition elapsedAt (w : World) : Time.Duration :=
  Time.Sub (wall env (S (ticks w))) (wall env (ticks w)).

(** The world once the first [n] of the assertions have been evaluated. *)
Definition asserted (response : Model.Response) (assertions : list Assertion)
    (n : nat) (w : World) : World :=
  mkWorld Assertion (store w) (ticks w)
    (trace w ++ ((fun a => EvAssert a response) <$> take n assertions)).

(** The templated fields of a request in the order they are patched, each
    with its identifier and the value handed to [patch]: the body, the
    base URL, the query parameters, and the headers once the headers of
    the command line have been merged in. *)
Definition templatedFields (step : Step) (w : World)
    (baseUrl : string) (queryParams : gmap string string)
  : list (string * string) :=
  [("body"%string, Model.Step_Body step); ("URL"%string, baseUrl)]
  ++ ((fun kv => (paramLabel kv.1, kv.2)) <$> range env queryParams)
  ++ ((fun kv => (headerLabel kv.1, kv.2)) <$>
        range env (overrideHeaders w (flattenHeaders (Model.Step_Headers step)))).

(** The records that patching [fields] leaves: one for every field that
    [Patch] changes, in order, with the identifier of the field and the
    value it was given. *)
Definition patchRecords (w : World) (fields : list (string * string))
  : list Model.ResultVariable :=
  (fun f => Model.mkResultVariable f.1 (Patch env (store w) f.2) None Model.Used)
    <$> filter (fun f => f.2 ≠ Patch env (store w) f.2) fields.

End Controller.

(** ** Sample collaborators

    A set of collaborators simple enough to run the controller on concrete
    steps: the assertion of a step is the status code it expects. *)
Module Sample.

(** Replaces a template that consists of one placeholder [{{name}}] by the
    value of [name], and leaves every other template as it is. *)
Definition Patch (st : gmap string string) (template : string) : string :=
  match template with
  | String "{"%char (String "{"%char rest) =>
      let n := (String.length rest - 2)%nat in
      if bool_decide (String.substring n 2 rest = "}}")
      then default template (st !! String.substring 0 n rest)
      else template
  | _ => template
  end.

(** Decomposes the URLs listed in [urls], fails on the others. *)
Definition ExtractUrl (urls : gmap string (string * gmap string string))
    (step : Model.Step Z) : (string * gmap string string) + error :=
  match urls !! Model.Step_URL step with
  | Some decomposed => inl decomposed
  | None => inr ("parse " +:+ Model.Step_URL step +:+ ": invalid URI for request")
  end.

(** Keeps the status code and the headers, takes [decoded] for the body. *)
Definition NewResponse (decoded : iface) (res : Rest.Response)
    (elapsed : Time.Duration) : Model.Response * option error :=
  (Model.mkResponse (Rest.Response_StatusCode res) (Rest.Response_Headers res)
                    decoded elapsed, None).

Definition Assert (w : World Z) (expected : Z) (response : Model.Response) : bool :=
  bool_decide (Model.Response_StatusCode response = expected).

(** Splits a dotted key into its segments. *)
Fixpoint splitDots (s segment : string) : list string :=
  match s with
  | "" => [String.rev segment]
  | String "."%char rest => String.rev segment :: splitDots rest ""
  | String c rest => splitDots rest (String c segment)
  end.

Definition JsonConvertKeyName (property : string) : list string :=
  splitDots property "".

Definition field (blob : iface) (query : string) : error + iface :=
  match blob with
  | IMap m =>
      match list_find (fun kv => kv.1 = query) m with
      | Some (_, (_, v)) => inr v
      | None => inl ("Object does not contain field " +:+ query)
      end
  | _ => inl ("Object is not an object at query " +:+ query)
  end.

(** Follows the fields named by [path] through nested objects. *)
Fixpoint Interface (blob : iface) (path : list string) : error + iface :=
  match path with
  | [] => inr blob
  | q :: path =>
      match field blob q with
      | inl err => inl err
      | inr v => Interface v path
      end
  end.

(** Prints [m * 2^e], for [0 <= e] and a value below 10^6, as the plain
    numeral that [%g] prints for such an integer, and positive zero as [0];
    prints a question mark for every other value. *)
Definition Sprintf_g (f : float64) : string :=
  match f with
  | S754_zero false => "0"
  | S754_finite s m e =>
      if bool_decide (0 <= e /\ Z.pos m * 2 ^ e < 1000000)
      then (if s then "-" else "") +:+ pretty (Z.pos m * 2 ^ e)
      else "?"
  | _ => "?"
  end.

Definition collaborators
    (urls : gmap string (string * gmap string string))
    (config : gmap string string)
    (answer : option Rest.Response * option error)
    (decoded : iface) (clock : nat -> Z) : Collaborators Z bool :=
  mkCollaborators Z bool
    Patch (ExtractUrl urls) config (fun _ _ => answer) (NewResponse decoded)
    Assert JsonConvertKeyName Interface Sprintf_g clock
    (fun A m => map_to_list m).

(** A world in which nothing has happened yet. *)
Definition w0 : World Z := mkWorld Z ∅ 0 [].

(** A world whose store holds two variables. *)
Definition w1 : World Z :=
  mkWorld Z (<["tok" := "abc"]> (<["uid" := "7"]> ∅)) 0 [].

(** A clock that advances by 123.6 ms from one reading to the next. *)
Definition clock (n : nat) : Z := 1000 + Z.of_nat n * 123600000.

Definition usersUrl : string := "http://api/users?id={{uid}}&page=2".

Definition urls : gmap string (string * gmap string string) :=
  {[ usersUrl := ("http://api/users"%string,
                  <["id" := "{{uid}}"]> (<["page" := "2"]> ∅)) ]}.

(** One header of the command line, itself a template. *)
Definition config : gmap string string := {[ "X-Trace" := "{{tok}}" ]}.

(** The body [{"user":{"name":"ann","tags":[]}}], decoded. *)
Definition decoded : iface :=
  IMap [("user"%string,
         IMap [("name"%string, IString "ann"); ("tags"%string, ISlice [])])].

Definition answer : Rest.Response :=
  Rest.mkResponse 200 "" {[ "X-Req-Id" := ["abc"%string] ]}.

(** The transport answers with a response. *)
Definition online : Collaborators Z bool :=
  collaborators urls config (Some answer, None) decoded clock.

(** The transport answers with an error. *)
Definition refused : Collaborators Z bool :=
  collaborators urls config (None, Some "connection refused"%string) INil clock.

Definition rid : Model.Variable_ :=
  Model.mkVariable "rid" Model.ResponseHeader "X-Req-Id".
Definition elapsed : Model.Variable_ :=
  Model.mkVariable "elapsed" Model.ResponseTime "".
Definition userId : Model.Variable_ :=
  Model.mkVariable "id" Model.ResponseJson "user.id".
Definition userName : Model.Variable_ :=
  Model.mkVariable "name" Model.ResponseJson "user.name".

(** A request step: two templated query parameters, two headers, a
    templated body, two assertions and four declarations. *)
Definition step : Model.Step Z :=
  Model.mkStep Z Model.RequestStep 0 "GET" usersUrl
    (<["Accept" := ["json"%string]]> (<["X-Auth" := ["{{tok}}"%string; "other"%string]]> ∅))
    "{{tok}}" [200; 404] [elapsed; rid; userName; userId].

(** A request step whose URL cannot be decomposed. *)
Definition badStep : Model.Step Z :=
  Model.mkStep Z Model.RequestStep 0 "GET" "http://[::1" ∅ "{}" [200] [rid].

(** The response of a request that took 123.6 ms. *)
Definition response : Model.Response :=
  Model.mkResponse 200 {[ "X-Req-Id" := ["abc"%string] ]} decoded 123600000.

(** A response whose elapsed time is the largest [Duration]. *)
Definition longest : Model.Response :=
  Model.mkResponse 200 ∅ INil 9223372036854775807.

End Sample.

(** ** printRestRequest *)

(** What the function hands to the logger: a line at the info level, a line
    at the debug level, or the [Print] method of a record, which lives in
    the model package. *)
Inductive LogEntry :=
| LogInfo (msg : string)
| LogDebug (msg : string)
| LogPrint (variable : Model.ResultVariable).

Section Printing.

Context {Assertion ResultAssertion : Type}.
Variable env : Collaborators Assertion ResultAssertion.

(** [fmt.Sprintf("%s=%s", key, value)] *)
Definition keyValue (kv : string * string) : string := kv.1 +:+ "=" +:+ kv.2.

(** The parameters that follow the first one, each behind its [&]: the
    text against which the composed query string is stated. *)
Definition andPairs (pairs : list string) : string :=
  foldr (fun param rest => "&" +:+ param +:+ rest) "" pairs.

(** The loop that composes the query string: [?] before the first
    parameter, [&] before the others. *)
Definition composeParams (queryParams : gmap string string) : string :=
  foldl (fun params kv =>
           let params :=
             if (String.length params =? 0)%nat
             then params +:+ "?" else params +:+ "&" in
           params +:+ keyValue kv)
        "" (range env queryParams).

Definition printRestRequest (req : Rest.Request)
    (appliedVar : list Model.ResultVariable) : list LogEntry :=
  let url := Rest.Request_BaseURL req +:+ composeParams (Rest.Request_QueryParams req) in
  [LogInfo "------------------------";
   LogInfo (Rest.Request_Method req +:+ " " +:+ url)]
  ++ (if (0 <? String.length (Rest.Request_Body req))%nat
      then [LogDebug ("Body: " +:+ Rest.Request_Body req)] else [])
  ++ (if (0 <? size (Rest.Request_Headers req))%nat
      then LogDebug "Headers:"
           :: ((fun kv => LogDebug (String "009"%char (kv.1 +:+ ": " +:+ kv.2)))
                 <$> range env (Rest.Request_Headers req))
      else [])
  ++ (if (0 <? length appliedVar)%nat
      then LogInfo "Variables Used:" :: (LogPrint <$> appliedVar)
      else [])
  ++ [LogInfo "---"].

End Printing.

(** ** Views of an extraction and of an outcome *)

Section Views.

Context {Assertion ResultAssertion : Type}.
Variable env : Collaborators Assertion ResultAssertion.

(** The records one declaration leaves, read off a run of the loop body in
    a world where nothing has happened. *)
Definition extracted (response : Model.Response) (variable : Model.Variable_)
  : list Model.ResultVariable :=
  (attachVariable env response (mkWorld Assertion ∅ 0 [], []) variable).2.

(** The writes that records stand for: a record without an error is the
    write of its value under its key. *)
Definition written (records : list Model.ResultVariable) : list (string * string) :=
  omap (fun r =>
          match Model.ResultVariable_Err r with
          | None => Some (Model.ResultVariable_Key r, Model.ResultVariable_NewValue r)
          | Some _ => None
          end) records.

(** The calls of [Add] for a list of writes, in order. *)
Definition applyWrites (writes : list (string * string)) (w : World Assertion)
  : World Assertion :=
  foldl (fun w kv => Add kv.1 kv.2 w) w writes.

(** The same writes on a bare table. *)
Definition insertAll (writes : list (string * string)) (st : gmap string string)
  : gmap string string :=
  foldl (fun st kv => <[kv.1 := kv.2]> st) st writes.

(** A declaration the loop passes over without a record or a write: it has
    no name, or a source the switch has no case for, or it names a header
    that the response lacks or has with no value. *)
Definition silent (response : Model.Response) (variable : Model.Variable_) : Prop :=
  Model.Variable_Name variable = ""
  \/ (exists s, Model.Variable_Source variable = Model.SourceOther s)
  \/ (Model.Variable_Source variable = Model.ResponseHeader
      /\ (Model.Response_Header response !! Model.Variable_Property variable = None
          \/ Model.Response_Header response !! Model.Variable_Property variable
             = Some [])).

(** The world a call leaves, whether it returned or panicked. *)
Definition worldOf {A W : Type} (o : Outcome A W) : W :=
  match o with
  | Returned _ w => w
  | Panicked w => w
  end.

(** The headers of a step once flattened and merged with the headers of
    the command line, before they are patched. *)
Definition mergedHeaders (step : Model.Step Assertion) (w : World Assertion)
  : gmap string string :=
  overrideHeaders env w (flattenHeaders env (Model.Step_Headers step)).

(** The result of a request that was sent and did not yield a response. *)
Definition partialResult (req : Rest.Request) (variables : list Model.ResultVariable)
    (w : World Assertion) : Model.ResultStep ResultAssertion :=
  Model.mkResultStep ResultAssertion Model.RequestStep req Model.Response_zero
    (elapsedAt env w) [] variables [].

End Views.

(** ** More sample inputs *)
Module Cases.

(** The transport hands back neither a response nor an error. *)
Definition mute : Collaborators Z bool :=
  Sample.collaborators Sample.urls Sample.config (None, None) INil Sample.clock.

(** The transport answers, and the answer cannot be decoded. *)
Definition garbled : Collaborators Z bool :=
  mkCollaborators Z bool
    Sample.Patch (Sample.ExtractUrl Sample.urls) Sample.config
    (fun _ _ => (Some Sample.answer, None))
    (fun _ _ => (Model.Response_zero,
                 Some "invalid character '<' looking for beginning of value"%string))
    Sample.Assert Sample.JsonConvertKeyName Sample.Interface Sample.Sprintf_g
    Sample.clock (fun A m => map_to_list m).

(** A pause of two seconds. *)
Definition pauseStep : Model.Step Z :=
  Model.mkStep Z Model.Pause 2 "" "" ∅ "" [] [].

(** Two declarations of the same variable: the status, then a header. *)
Definition twice : list Model.Variable_ :=
  [Model.mkVariable "v" Model.ResponseStatus "";
   Model.mkVariable "v" Model.ResponseHeader "X-Req-Id"].

(** A request with two query parameters. *)
Definition search : Rest.Request :=
  Rest.mkRequest "GET" "http://api/users"
    ∅ (<["id" := "7"]> (<["page" := "2"]> ∅)) "".

End Cases.

(** * Properties *)

(** ** Durations *)

Lemma wrap64_id z :
  - 2 ^ 63 <= z <= 2 ^ 63 - 1 -> Time.wrap64 z = z.
Proof.
  intros Hz. unfold Time.wrap64.
  rewrite Z.mod_small; lia.
Qed.

Lemma wrap64_range z : - 2 ^ 63 <= Time.wrap64 z <= 2 ^ 63 - 1.
Proof.
  unfold Time.wrap64.
  pose proof (Z.mod_pos_bound (z + 2 ^ 63) (2 ^ 64)). lia.
Qed.

Lemma wrap64_wrap64_add a b : Time.wrap64 (Time.wrap64 a + b) = Time.wrap64 (a + b).
Proof.
  unfold Time.wrap64.
  replace ((a + 2 ^ 63) mod 2 ^ 64 - 2 ^ 63 + b + 2 ^ 63)
    with ((a + 2 ^ 63) mod 2 ^ 64 + b) by lia.
  rewrite Zplus_mod_idemp_l. f_equal. f_equal. lia.
Qed.

Lemma lessThanHalf_small r m :
  0 <= r < m -> m <= 2 ^ 62 ->
  Time.lessThanHalf r m = bool_decide (2 * r < m).
Proof.
  intros Hr Hm. unfold Time.lessThanHalf, Time.uint64.
  rewrite (Z.mod_small r), (Z.mod_small m), (Z.mod_small (r + r)) by lia.
  case_bool_decide; [apply Z.ltb_lt | apply Z.ltb_ge]; lia.
Qed.

(** Where the rounded value fits in a [Duration], [Round] followed by the
    division computes it. *)
Lemma Round_Millisecond d :
  Time.minDuration <= d <= Time.maxDuration ->
  Time.minDuration <= round_to_ms d * Time.Millisecond <= Time.maxDuration ->
  Time.div (Time.Round d Time.Millisecond) Time.Millisecond = round_to_ms d.
Proof.
  unfold Time.minDuration, Time.maxDuration, Time.Millisecond, round_to_ms.
  intros Hd Hfit. unfold Time.Round, Time.div.
  change (1000000 <=? 0) with false. cbv iota.
  destruct (Z.ltb_spec d 0) as [Hneg | Hpos].
  - rewrite Z.sgn_neg in * by done. rewrite Z.abs_neq in * by lia.
    pose proof (Z.rem_opp_l' d 1000000) as Hopp.
    pose proof (Z.rem_bound_pos (- d) 1000000 ltac:(lia) ltac:(lia)) as Hr.
    pose proof (Z.quot_rem' (- d) 1000000) as Hqr.
    rewrite Z.rem_mod_nonneg in * by lia.
    rewrite Z.quot_div_nonneg in Hqr by lia.
    assert (Z.rem d 1000000 = - ((- d) mod 1000000)) as -> by lia.
    rewrite Z.opp_involutive.
    rewrite (wrap64_id ((- d) mod 1000000)) by lia.
    rewrite lessThanHalf_small by lia.
    set (r := (- d) mod 1000000) in *. set (q := (- d) / 1000000) in *.
    assert (Hq : (- d + 500000) / 1000000 = if bool_decide (2 * r < 1000000) then q else q + 1).
    { case_bool_decide; symmetry; apply Z.div_unique with (r := if bool_decide (2 * r < 1000000) then r + 500000 else r - 500000);
        case_bool_decide; lia. }
    rewrite Hq in *.
    case_bool_decide.
    + rewrite (wrap64_id (d + r)) by lia.
      replace (d + r) with (- q * 1000000) by lia.
      rewrite Z.quot_mul by lia. rewrite wrap64_id; lia.
    + rewrite wrap64_wrap64_add.
      rewrite (wrap64_id (d - 1000000 + r)) by lia.
      destruct (Z.ltb_spec (d - 1000000 + r) d); [|lia].
      replace (d - 1000000 + r) with (- (q + 1) * 1000000) by lia.
      rewrite Z.quot_mul by lia. rewrite wrap64_id; lia.
  - destruct (decide (d = 0)) as [-> | Hnz]; [done|].
    rewrite Z.sgn_pos in * by lia. rewrite Z.abs_eq in * by lia.
    pose proof (Z.rem_bound_pos d 1000000 ltac:(lia) ltac:(lia)) as Hr.
    pose proof (Z.quot_rem' d 1000000) as Hqr.
    rewrite Z.rem_mod_nonneg in * by lia.
    rewrite Z.quot_div_nonneg in Hqr by lia.
    rewrite lessThanHalf_small by lia.
    set (r := d mod 1000000) in *. set (q := d / 1000000) in *.
    assert (Hq : (d + 500000) / 1000000 = if bool_decide (2 * r < 1000000) then q else q + 1).
    { case_bool_decide; symmetry; apply Z.div_unique with (r := if bool_decide (2 * r < 1000000) then r + 500000 else r - 500000);
        case_bool_decide; lia. }
    rewrite Hq in *.
    case_bool_decide.
    + rewrite (wrap64_id (d - r)) by lia.
      replace (d - r) with (q * 1000000) by lia.
      rewrite Z.quot_mul by lia. rewrite wrap64_id; lia.
    + replace (Time.wrap64 (d + 1000000) - r) with (Time.wrap64 (d + 1000000) + - r) by lia.
      rewrite wrap64_wrap64_add.
      rewrite (wrap64_id (d + 1000000 + - r)) by lia.
      destruct (Z.ltb_spec d (d + 1000000 + - r)); [|lia].
      replace (d + 1000000 + - r) with ((q + 1) * 1000000) by lia.
      rewrite Z.quot_mul by lia. rewrite wrap64_id; lia.
Qed.

(** ** The response extractor *)

Section Extraction.

Context {Assertion ResultAssertion : Type}.
Variable env : Collaborators Assertion ResultAssertion.

Implicit Types (w : World Assertion) (result : list Model.ResultVariable).
Implicit Types (response : Model.Response) (variable : Model.Variable_).

Lemma named_not_skipped (name : string) :
  name ≠ "" -> (String.length name =? 0)%nat = false.
Proof. destruct name; [done | intros _; reflexivity]. Qed.

(** The declarations are handled one after the other, each from the world
    and the records its predecessors left. *)
Lemma attachVariablesToContext_snoc response vars variable w :
  attachVariablesToContext env response (vars ++ [variable]) w
  = attachVariable env response (attachVariablesToContext env response vars w) variable.
Proof. unfold attachVariablesToContext. by rewrite foldl_app. Qed.

Lemma store_Add key value w : store (Add key value w) !! key = Some value.
Proof. apply lookup_insert_eq. Qed.

(** A leaf the type switch accepts is stored and recorded as it is
    rendered; any other leaf changes nothing and leaves one error. *)
Lemma exportValue_supported name extractedKey value w result :
  match extractedKey with
  | IString s => value = s
  | IBool b => value = FormatBool b
  | IFloat64 f => value = Sprintf_g env f
  | _ => False
  end ->
  exportValue env name extractedKey w result
  = (Add name value w, result ++ [created name value]).
Proof. destruct extractedKey; intros Hv; subst; done. Qed.

Lemma exportValue_unsupported name extractedKey w result :
  match extractedKey with
  | INil | ISlice _ | IMap _ => True
  | _ => False
  end ->
  exportValue env name extractedKey w result
  = (w, result ++ [failed name ("type " +:+ TypeOf_String extractedKey
                                 +:+ " not valid type to export as a variable")]).
Proof. destruct extractedKey; intros Hv; done. Qed.

(** A declaration that has a name reaches the switch on its source. *)
Lemma attachVariable_named response variable w result :
  Model.Variable_Name variable ≠ "" ->
  attachVariable env response (w, result) variable
  = let name := Model.Variable_Name variable in
    match Model.Variable_Source variable with
    | Model.ResponseTime =>
        let value :=
          FormatInt (Time.div (Time.Round (Model.Response_TimeElapsed response)
                                          Time.Millisecond)
                              Time.Millisecond) in
        (Add name value w, result ++ [created name value])
    | Model.ResponseStatus =>
        let value := FormatInt (Model.Response_StatusCode response) in
        (Add name value w, result ++ [created name value])
    | Model.ResponseHeader =>
        match Model.Response_Header response !! Model.Variable_Property variable with
        | Some (h0 :: _) => (Add name h0 w, result ++ [created name h0])
        | _ => (w, result)
        end
    | Model.ResponseJson =>
        match Interface env (Model.Response_Body response)
                (JsonConvertKeyName env (Model.Variable_Property variable)) with
        | inl err => exportValue env name INil w (result ++ [failed name err])
        | inr extractedKey => exportValue env name extractedKey w result
        end
    | Model.SourceOther _ => (w, result)
    end.
Proof.
  intros Hname. unfold attachVariable.
  by rewrite (named_not_skipped _ Hname).
Qed.

(** A declaration without a name is skipped, whatever its source. *)
Lemma attachVariable_unnamed response variable w result :
  Model.Variable_Name variable = "" ->
  attachVariable env response (w, result) variable = (w, result).
Proof. intros Hname. unfold attachVariable. by rewrite Hname. Qed.

(** A JSON leaf of a type the switch does not accept stores nothing and
    leaves exactly one record, which carries the error. *)
Lemma attach_json_unsupported_leaf response vars variable w w1 result1 leaf :
  Model.Variable_Name variable ≠ "" ->
  Model.Variable_Source variable = Model.ResponseJson ->
  Interface env (Model.Response_Body response)
    (JsonConvertKeyName env (Model.Variable_Property variable)) = inr leaf ->
  match leaf with INil | ISlice _ | IMap _ => True | _ => False end ->
  attachVariablesToContext env response vars w = (w1, result1) ->
  attachVariablesToContext env response (vars ++ [variable]) w
  = (w1, result1 ++ [failed (Model.Variable_Name variable)
                       ("type " +:+ TypeOf_String leaf
                          +:+ " not valid type to export as a variable")]).
Proof.
  intros Hname Hsrc Hq Hleaf Hvars.
  rewrite attachVariablesToContext_snoc, Hvars, attachVariable_named by done.
  rewrite Hsrc, Hq. cbv zeta. by apply exportValue_unsupported.
Qed.

(** A JSON leaf of a supported type is stored, and recorded once, as the
    string, as [true] or [false], or as [%g] prints the number. *)
Lemma attach_json_supported_leaf response vars variable w w1 result1 leaf value :
  Model.Variable_Name variable ≠ "" ->
  Model.Variable_Source variable = Model.ResponseJson ->
  Interface env (Model.Response_Body response)
    (JsonConvertKeyName env (Model.Variable_Property variable)) = inr leaf ->
  match leaf with
  | IString s => value = s
  | IBool b => value = (if b then "true" else "false")
  | IFloat64 f => value = Sprintf_g env f
  | _ => False
  end ->
  attachVariablesToContext env response vars w = (w1, result1) ->
  attachVariablesToContext env response (vars ++ [variable]) w
  = (Add (Model.Variable_Name variable) value w1,
     result1 ++ [created (Model.Variable_Name variable) value]).
Proof.
  intros Hname Hsrc Hq Hleaf Hvars.
  rewrite attachVariablesToContext_snoc, Hvars, attachVariable_named by done.
  rewrite Hsrc, Hq. cbv zeta. by apply exportValue_supported.
Qed.

(** A named ResponseStatus declaration stores, and records once, the
    status code of the response written as a decimal integer. *)
Lemma attach_response_status response vars variable w w1 result1 :
  Model.Variable_Name variable ≠ "" ->
  Model.Variable_Source variable = Model.ResponseStatus ->
  attachVariablesToContext env response vars w = (w1, result1) ->
  attachVariablesToContext env response (vars ++ [variable]) w
  = (Add (Model.Variable_Name variable)
         (FormatInt (Model.Response_StatusCode response)) w1,
     result1 ++ [created (Model.Variable_Name variable)
                   (FormatInt (Model.Response_StatusCode response))]).
Proof.
  intros Hname Hsrc Hvars.
  rewrite attachVariablesToContext_snoc, Hvars, attachVariable_named by done.
  by rewrite Hsrc.
Qed.

(** C1, on the code. A ResponseJson declaration that has a name and whose
    JSON-path query fails stores no value, and the extractor appends two
    records for it, not one: the record that carries the error of the
    query, then, because the type switch still runs on the nil value the
    failed query returned, a second record that carries the error of an
    unsupported type. Both are tagged with the name of the variable. *)
Theorem attach_json_query_failure response vars variable w w1 result1 err :
  Model.Variable_Name variable ≠ "" ->
  Model.Variable_Source variable = Model.ResponseJson ->
  Interface env (Model.Response_Body response)
    (JsonConvertKeyName env (Model.Variable_Property variable)) = inl err ->
  attachVariablesToContext env response vars w = (w1, result1) ->
  attachVariablesToContext env response (vars ++ [variable]) w
  = (w1, result1 ++
         [failed (Model.Variable_Name variable) err;
          failed (Model.Variable_Name variable)
            "type %!s(<nil>) not valid type to export as a variable"]).
Proof.
  intros Hname Hsrc Hq Hvars.
  rewrite attachVariablesToContext_snoc, Hvars, attachVariable_named by done.
  rewrite Hsrc, Hq. cbv zeta.
  rewrite exportValue_unsupported by done.
  by rewrite <- app_assoc.
Qed.

(** C8. A ResponseHeader declaration that has a name stores the first entry of the header
    it names, and leaves exactly one Created record with that value, when
    the response has that header with at least one value; when the
    response does not have the header, nothing is stored and no record is
    left. *)
Theorem attach_response_header response vars variable w w1 result1 :
  Model.Variable_Name variable ≠ "" ->
  Model.Variable_Source variable = Model.ResponseHeader ->
  attachVariablesToContext env response vars w = (w1, result1) ->
  (forall h0 hs,
      Model.Response_Header response !! Model.Variable_Property variable
      = Some (h0 :: hs) ->
      attachVariablesToContext env response (vars ++ [variable]) w
      = (Add (Model.Variable_Name variable) h0 w1,
         result1 ++ [Model.mkResultVariable (Model.Variable_Name variable) h0
                       None Model.Created])
      /\ store (Add (Model.Variable_Name variable) h0 w1)
           !! Model.Variable_Name variable = Some h0)
  /\ (Model.Response_Header response !! Model.Variable_Property variable = None ->
      attachVariablesToContext env response (vars ++ [variable]) w
      = (w1, result1)).
Proof.
  intros Hname Hsrc Hvars.
  rewrite attachVariablesToContext_snoc, Hvars, attachVariable_named by done.
  rewrite Hsrc. cbv zeta. split.
  - intros h0 hs ->. split; [done | apply store_Add].
  - by intros ->.
Qed.

(** C9, amended. A ResponseTime declaration that has a name stores, and records once, the
    elapsed time of the response rounded to the nearest whole millisecond
    (halfway values away from zero) and written as a decimal integer,
    whenever the rounded time fits in a 64-bit count of nanoseconds. *)
Theorem attach_response_time response vars variable w w1 result1 :
  Model.Variable_Name variable ≠ "" ->
  Model.Variable_Source variable = Model.ResponseTime ->
  Time.minDuration <= Model.Response_TimeElapsed response <= Time.maxDuration ->
  Time.minDuration
    <= round_to_ms (Model.Response_TimeElapsed response) * Time.Millisecond
    <= Time.maxDuration ->
  attachVariablesToContext env response vars w = (w1, result1) ->
  attachVariablesToContext env response (vars ++ [variable]) w
  = (Add (Model.Variable_Name variable)
         (FormatInt (round_to_ms (Model.Response_TimeElapsed response))) w1,
     result1 ++ [Model.mkResultVariable (Model.Variable_Name variable)
                   (FormatInt (round_to_ms (Model.Response_TimeElapsed response)))
                   None Model.Created])
  /\ store (Add (Model.Variable_Name variable)
              (FormatInt (round_to_ms (Model.Response_TimeElapsed response))) w1)
       !! Model.Variable_Name variable
     = Some (FormatInt (round_to_ms (Model.Response_TimeElapsed response))).
Proof.
  intros Hname Hsrc Hd Hfit Hvars.
  rewrite attachVariablesToContext_snoc, Hvars, attachVariable_named by done.
  rewrite Hsrc. cbv zeta. rewrite Round_Millisecond by done.
  split; [done | apply store_Add].
Qed.

End Extraction.

(** C9, as stated, fails where the rounding saturates: for an elapsed time
    of 9223372036854775807 ns, which is 9223372036854.775807 ms and rounds
    to 9223372036855 ms, the extractor stores 9223372036854. *)
Lemma response_time_saturation_counterexample :
  store (attachVariablesToContext Sample.online Sample.longest
           [Sample.elapsed] Sample.w0).1 !! "elapsed"
  = Some "9223372036854"%string
  /\ FormatInt (round_to_ms (Model.Response_TimeElapsed Sample.longest))
     = "9223372036855"%string
  /\ store (attachVariablesToContext Sample.online Sample.longest
              [Sample.elapsed] Sample.w0).1 !! "elapsed"
     ≠ Some (FormatInt (round_to_ms (Model.Response_TimeElapsed Sample.longest))).
Proof. vm_compute. repeat split; congruence. Qed.

(** ** The step engine *)

Section Engine.

Context {Assertion ResultAssertion : Type}.
Variable env : Collaborators Assertion ResultAssertion.

Implicit Types (w : World Assertion) (step : Model.Step Assertion).
Implicit Types (response : Model.Response).

Lemma Run_request step w :
  Model.Step_StepType step = Model.RequestStep ->
  Run env step w = request env step w.
Proof. intros Hkind. unfold Run. by rewrite Hkind. Qed.

Lemma convertAndPatchToHttpRequest_error step w err :
  ExtractUrl env step = inr err ->
  convertAndPatchToHttpRequest env step w = (Rest.Request_zero, [], Some err).
Proof. intros Hurl. unfold convertAndPatchToHttpRequest. by rewrite Hurl. Qed.

Lemma convertAndPatchToHttpRequest_built step w req variables :
  convertAndPatchToHttpRequest env step w = (req, variables, None) ->
  exists baseUrl queryParams, ExtractUrl env step = inl (baseUrl, queryParams).
Proof.
  unfold convertAndPatchToHttpRequest.
  destruct (ExtractUrl env step) as [[baseUrl queryParams] | err]; [eauto | done].
Qed.

(** A request that cannot be built ends the step at once. *)
Lemma request_build_failure step w err :
  ExtractUrl env step = inr err ->
  request env step w
  = Returned (Model.ResultStep_zero, Some "impossible to convert the request"%string) w.
Proof.
  intros Hurl. unfold request.
  by rewrite (convertAndPatchToHttpRequest_error _ _ _ Hurl).
Qed.

(** A request that was built is sent; when the transport answers with an
    error the step ends with what it has so far. *)
Lemma request_send_error step w req variables res e :
  convertAndPatchToHttpRequest env step w = (req, variables, None) ->
  Send env (Now env w).2 req = (res, Some e) ->
  request env step w
  = Returned
      (Model.mkResultStep ResultAssertion Model.RequestStep req
         Model.Response_zero (elapsedAt env w) [] variables [], Some e)
      (sent req w).
Proof.
  intros Hbuild Hsend. unfold request. rewrite Hbuild.
  cbn [Now fst snd] in *. by rewrite Hsend.
Qed.

(** The transport answers with neither a response nor an error: the
    dereference of the nil response panics. *)
Lemma request_send_nil step w req variables :
  convertAndPatchToHttpRequest env step w = (req, variables, None) ->
  Send env (Now env w).2 req = (None, None) ->
  request env step w = Panicked (sent req w).
Proof.
  intros Hbuild Hsend. unfold request. rewrite Hbuild.
  cbn [Now fst snd] in *. by rewrite Hsend.
Qed.

Lemma request_response_error step w req variables res response e :
  convertAndPatchToHttpRequest env step w = (req, variables, None) ->
  Send env (Now env w).2 req = (Some res, None) ->
  NewResponse env res (elapsedAt env w) = (response, Some e) ->
  request env step w
  = Returned
      (Model.mkResultStep ResultAssertion Model.RequestStep req
         Model.Response_zero (elapsedAt env w) [] variables [], Some e)
      (sent req w).
Proof.
  intros Hbuild Hsend Hnew. unfold request. rewrite Hbuild.
  cbn [Now fst snd] in *. rewrite Hsend. cbn [log store ticks trace].
  fold (elapsedAt env w). by rewrite Hnew.
Qed.

Lemma request_response step w req variables res response :
  convertAndPatchToHttpRequest env step w = (req, variables, None) ->
  Send env (Now env w).2 req = (Some res, None) ->
  NewResponse env res (elapsedAt env w) = (response, None) ->
  request env step w
  = let asserted := assertResponse env response (Model.Step_Assertions step)
                      (sent req w) in
    let extracted := attachVariablesToContext env response
                       (Model.Step_Variables step) asserted.1 in
    Returned
      (Model.mkResultStep ResultAssertion Model.RequestStep req response
         (elapsedAt env w) asserted.2 variables extracted.2, None)
      extracted.1.
Proof.
  intros Hbuild Hsend Hnew. unfold request. rewrite Hbuild.
  cbn [Now fst snd] in *. rewrite Hsend. cbn [log store ticks trace].
  fold (elapsedAt env w). rewrite Hnew. fold (sent req w).
  destruct (assertResponse _ _ _ _) as [w2 outcomes].
  by destruct (attachVariablesToContext _ _ _ _) as [w3 created'].
Qed.

(** A Request step whose request was built returns, unless the transport
    hands back neither a response nor an error, and what it returns
    carries the kind, the request and the patches. *)
Lemma Run_built step w req variables :
  Model.Step_StepType step = Model.RequestStep ->
  convertAndPatchToHttpRequest env step w = (req, variables, None) ->
  Send env (Now env w).2 req ≠ (None, None) ->
  exists result err w',
    Run env step w = Returned (result, err) w'
    /\ Model.ResultStep_StepType result = Model.RequestStep
    /\ Model.ResultStep_Request result = req
    /\ Model.ResultStep_VariableApplied result = variables
    /\ (err = None ->
        exists res,
          Send env (Now env w).2 req = (Some res, None)
          /\ NewResponse env res (Model.ResultStep_StepTime result)
             = (Model.ResultStep_Response result, None)).
Proof.
  intros Hkind Hbuild Hnil. rewrite Run_request by done.
  destruct (Send env (Now env w).2 req) as [res [e |]] eqn:Hsend.
  { rewrite (request_send_error _ _ _ _ _ _ Hbuild Hsend).
    eexists _, _, _. split; [reflexivity |]. by cbn. }
  destruct res as [res |]; [| done].
  destruct (NewResponse env res (elapsedAt env w)) as [response [e |]] eqn:Hnew.
  { rewrite (request_response_error _ _ _ _ _ _ _ Hbuild Hsend Hnew).
    eexists _, _, _. split; [reflexivity |]. by cbn. }
  rewrite (request_response _ _ _ _ _ _ Hbuild Hsend Hnew).
  eexists _, _, _. split; [reflexivity |]. cbn.
  repeat split; eauto.
Qed.

End Engine.

Section EngineClaims.

Context {Assertion ResultAssertion : Type}.
Variable env : Collaborators Assertion ResultAssertion.

Implicit Types (w : World Assertion) (step : Model.Step Assertion).
Implicit Types (response : Model.Response).

(** The assertions are evaluated in the order of their declaration, each
    exactly once, and nothing but the trace changes. *)
Lemma assertResponse_spec response assertions w :
  assertResponse env response assertions w
  = (asserted response assertions (length assertions) w,
     imap (fun i a => Assert env (asserted response assertions i w) a response)
          assertions).
Proof.
  unfold assertResponse.
  induction assertions as [| a assertions IH] using rev_ind.
  - destruct w. unfold asserted. cbn. by rewrite app_nil_r.
  - rewrite foldl_app. cbn [foldl]. rewrite IH. cbn [assertOne].
    rewrite imap_app. cbn [imap]. rewrite Nat.add_0_r.
    f_equal.
    + unfold log, asserted. cbn [store ticks trace].
      rewrite !firstn_all. by rewrite fmap_app, app_assoc.
    + f_equal.
      * apply imap_ext. intros i b Hi. unfold asserted.
        rewrite take_app_le; [done |].
        apply lookup_lt_Some in Hi. lia.
      * unfold asserted. by rewrite take_app_length, firstn_all.
Qed.

(** Extraction never reads the clock, and puts nothing on the trace but
    its writes to the store. *)
Lemma attachVariable_effects response st variable :
  ticks (attachVariable env response st variable).1 = ticks st.1
  /\ exists adds,
      trace (attachVariable env response st variable).1 = trace st.1 ++ adds
      /\ Forall (fun e => exists key value, e = EvAdd key value) adds.
Proof.
  destruct st as [w result]. unfold attachVariable.
  assert (Hnone : forall r : list Model.ResultVariable,
             ticks (w, r).1 = ticks w
             /\ exists adds, trace (w, r).1 = trace w ++ adds
                 /\ Forall (fun e : Event Assertion =>
                              exists key value, e = EvAdd key value) adds).
  { intros r. split; [done |]. exists []. by rewrite app_nil_r. }
  assert (Hadd : forall k v (r : list Model.ResultVariable),
             ticks (Add k v w, r).1 = ticks w
             /\ exists adds, trace (Add k v w, r).1 = trace w ++ adds
                 /\ Forall (fun e : Event Assertion =>
                              exists key value, e = EvAdd key value) adds).
  { intros k v r. split; [done |]. exists [EvAdd k v]. split; [done |].
    repeat constructor. eauto. }
  assert (Hexport : forall name leaf r,
             ticks (exportValue env name leaf w r).1 = ticks w
             /\ exists adds, trace (exportValue env name leaf w r).1 = trace w ++ adds
                 /\ Forall (fun e : Event Assertion =>
                              exists key value, e = EvAdd key value) adds).
  { intros name leaf r. destruct leaf; cbn [exportValue]; auto. }
  destruct (String.length _ =? 0)%nat; [apply Hnone |].
  destruct (Model.Variable_Source variable); auto.
  - destruct (_ !! _) as [[| h0 hs] |]; auto.
  - destruct (Interface _ _ _); auto.
Qed.

Lemma attachVariablesToContext_effects response vars w :
  ticks (attachVariablesToContext env response vars w).1 = ticks w
  /\ exists adds,
      trace (attachVariablesToContext env response vars w).1 = trace w ++ adds
      /\ Forall (fun e => exists key value, e = EvAdd key value) adds.
Proof.
  induction vars as [| variable vars IH] using rev_ind.
  - split; [done |]. exists []. by rewrite app_nil_r.
  - rewrite attachVariablesToContext_snoc.
    destruct IH as [Hticks (adds & Htrace & Hadds)].
    destruct (attachVariable_effects response
                (attachVariablesToContext env response vars w) variable)
      as [Hticks' (adds' & Htrace' & Hadds')].
    split; [congruence |].
    exists (adds ++ adds'). rewrite Htrace', Htrace, app_assoc.
    split; [done | by apply Forall_app].
Qed.

(** C3. When the transport answers a Request step with an error, [Run]
    returns the error together with a result that carries the request
    that was attempted and has no response, no assertion outcome and no
    created variable; the variable store is as it was, and the only call
    that left the controller is the [Send]. *)
Theorem run_transport_failure step w req variables res e :
  Model.Step_StepType step = Model.RequestStep ->
  convertAndPatchToHttpRequest env step w = (req, variables, None) ->
  Send env (Now env w).2 req = (res, Some e) ->
  exists result w',
    Run env step w = Returned (result, Some e) w'
    /\ Model.ResultStep_Request result = req
    /\ Model.ResultStep_Response result = Model.Response_zero
    /\ Model.ResultStep_Assertion result = []
    /\ Model.ResultStep_VariableCreated result = []
    /\ store w' = store w
    /\ trace w' = trace w ++ [EvSend req].
Proof.
  intros Hkind Hbuild Hsend.
  rewrite Run_request, (request_send_error env _ _ _ _ _ _ Hbuild Hsend) by done.
  eexists _, _. split; [reflexivity |]. by cbn.
Qed.

(** C10. When the transport answers a Request step with an error, the
    result that [Run] returns has its step time set to the time measured
    around the call, the reading of the clock after [Send] minus the
    reading before it, and its response, assertion outcomes and created
    variables are empty. *)
Theorem run_transport_failure_step_time step w req variables res e :
  Model.Step_StepType step = Model.RequestStep ->
  convertAndPatchToHttpRequest env step w = (req, variables, None) ->
  Send env (Now env w).2 req = (res, Some e) ->
  exists result w',
    Run env step w = Returned (result, Some e) w'
    /\ Model.ResultStep_StepTime result
       = Time.Sub (wall env (S (ticks w))) (wall env (ticks w))
    /\ Model.ResultStep_Response result = Model.Response_zero
    /\ Model.ResultStep_Assertion result = []
    /\ Model.ResultStep_VariableCreated result = [].
Proof.
  intros Hkind Hbuild Hsend.
  rewrite Run_request, (request_send_error env _ _ _ _ _ _ Hbuild Hsend) by done.
  eexists _, _. split; [reflexivity |]. by cbn.
Qed.

(** C6. When the URL of a Request step cannot be decomposed, [Run] returns
    the error of a request that cannot be built and leaves the world as it
    found it: [Send] is not called, no assertion is evaluated, nothing is
    written to the store, and the result has neither assertion outcomes
    nor created variables. *)
Theorem run_build_failure step w err :
  Model.Step_StepType step = Model.RequestStep ->
  ExtractUrl env step = inr err ->
  exists result,
    Run env step w
    = Returned (result, Some "impossible to convert the request"%string) w
    /\ Model.ResultStep_Assertion result = []
    /\ Model.ResultStep_VariableCreated result = [].
Proof.
  intros Hkind Hurl.
  rewrite Run_request, (request_build_failure env _ _ _ Hurl) by done.
  by eexists.
Qed.

(** C7. When a Request step obtains a response, the assertions are
    evaluated before the variables are extracted: the Assertion
    collaborator is called once for each declared assertion, in the order
    of the declarations and on the store as it was before the step, the
    outcomes are reported in that order, and extraction starts from the
    world those calls left and only adds writes to the store after them. *)
Theorem run_asserts_then_extracts step w req variables res response :
  Model.Step_StepType step = Model.RequestStep ->
  convertAndPatchToHttpRequest env step w = (req, variables, None) ->
  Send env (Now env w).2 req = (Some res, None) ->
  NewResponse env res (elapsedAt env w) = (response, None) ->
  let assertions := Model.Step_Assertions step in
  let w2 := asserted response assertions (length assertions) (sent req w) in
  exists result w3 adds,
    Run env step w = Returned (result, None) w3
    /\ length (Model.ResultStep_Assertion result) = length assertions
    /\ (forall i a, assertions !! i = Some a ->
          Model.ResultStep_Assertion result !! i
          = Some (Assert env (asserted response assertions i (sent req w)) a response))
    /\ store w2 = store w
    /\ trace w2 = trace w ++ [EvSend req]
                    ++ ((fun a => EvAssert a response) <$> assertions)
    /\ attachVariablesToContext env response (Model.Step_Variables step) w2
       = (w3, Model.ResultStep_VariableCreated result)
    /\ trace w3 = trace w2 ++ adds
    /\ Forall (fun e => exists key value, e = EvAdd key value) adds.
Proof.
  intros Hkind Hbuild Hsend Hnew assertions w2.
  rewrite Run_request, (request_response env _ _ _ _ _ _ Hbuild Hsend Hnew) by done.
  cbv zeta. rewrite assertResponse_spec. cbn [fst snd]. fold assertions. fold w2.
  destruct (attachVariablesToContext_effects response (Model.Step_Variables step) w2)
    as [_ (adds & Htrace & Hadds)].
  eexists _, _, adds. split; [reflexivity |]. cbn [Model.ResultStep_Assertion
    Model.ResultStep_VariableCreated].
  split; [apply length_imap |].
  split. { intros i a Hi. by rewrite list_lookup_imap, Hi. }
  split; [done |].
  split. { unfold w2, asserted, sent. cbn. by rewrite firstn_all, <- app_assoc. }
  split; [by destruct (attachVariablesToContext _ _ _ _) |].
  done.
Qed.

Lemma Run_pause step w :
  Model.Step_StepType step = Model.Pause ->
  Run env step w = pause env (Model.Step_Duration step) w.
Proof. intros Hkind. unfold Run. by rewrite Hkind. Qed.

(** C5, amended. The result that [Run] returns records the kind of a Pause
    step, and for a Request step whose request was built it carries, on
    success and on failure alike, the kind, the request that was built and
    the patches applied, and, when there is no error, the response. A
    Request step whose request cannot be built returns the empty result
    with the error "impossible to convert the request", and a step of any
    other kind returns the empty result with an error that names the
    kind. *)
Theorem run_result_structure step w :
  (Model.Step_StepType step = Model.Pause ->
   exists result w',
     Run env step w = Returned (result, None) w'
     /\ Model.ResultStep_StepType result = Model.Pause)
  /\ (Model.Step_StepType step = Model.RequestStep ->
      forall req variables,
        convertAndPatchToHttpRequest env step w = (req, variables, None) ->
        Send env (Now env w).2 req ≠ (None, None) ->
        exists result err w',
          Run env step w = Returned (result, err) w'
          /\ Model.ResultStep_StepType result = Model.RequestStep
          /\ Model.ResultStep_Request result = req
          /\ Model.ResultStep_VariableApplied result = variables
          /\ (err = None ->
              exists res,
                Send env (Now env w).2 req = (Some res, None)
                /\ NewResponse env res (Model.ResultStep_StepTime result)
                   = (Model.ResultStep_Response result, None)))
  /\ (Model.Step_StepType step = Model.RequestStep ->
      forall err,
        ExtractUrl env step = inr err ->
        Run env step w
        = Returned (Model.ResultStep_zero,
                    Some "impossible to convert the request"%string) w)
  /\ (Model.Step_StepType step ≠ Model.Pause ->
      Model.Step_StepType step ≠ Model.RequestStep ->
      Run env step w
      = Returned (Model.ResultStep_zero,
                  Some (Model.Step_StepType step +:+ " is an invalid step_type")) w).
Proof.
  repeat split.
  - intros Hkind. rewrite Run_pause by done. unfold pause. cbn. eauto.
  - intros Hkind req variables Hbuild Hnil. by apply Run_built.
  - intros Hkind err Hurl.
    by rewrite Run_request, (request_build_failure env _ _ _ Hurl).
  - intros Hpause Hrequest. unfold Run.
    by rewrite !bool_decide_eq_false_2.
Qed.

End EngineClaims.

(** ** The request builder *)

Section Builder.

Context {Assertion ResultAssertion : Type}.
Variable env : Collaborators Assertion ResultAssertion.

Implicit Types (w : World Assertion) (step : Model.Step Assertion).

Lemma patch_spec w initial name variables :
  patch env w initial name variables
  = (Patch env (store w) initial,
     variables ++ patchRecords env w [(name, initial)]).
Proof.
  unfold patch, patchRecords. rewrite filter_cons, filter_nil. cbn [fst snd].
  case_bool_decide; case_decide; try done.
  by rewrite app_nil_r.
Qed.

Lemma patchRecords_app w fields1 fields2 :
  patchRecords env w (fields1 ++ fields2)
  = patchRecords env w fields1 ++ patchRecords env w fields2.
Proof. unfold patchRecords. by rewrite filter_app, fmap_app. Qed.

(** The loop over a map leaves the records of its entries, in the order
    in which it visits them. *)
Lemma patchMap_records w label m result :
  (patchMap env w label m result).2
  = result ++ patchRecords env w ((fun kv => (label kv.1, kv.2)) <$> range env m).
Proof.
  unfold patchMap. generalize (range env m) as l. generalize m as m0.
  intros m0 l. revert m0 result.
  induction l as [| kv l IH]; intros m0 result.
  - cbn. by rewrite app_nil_r.
  - cbn [foldl fmap list_fmap]. rewrite patch_spec. cbn [fst snd].
    rewrite IH. rewrite <- app_assoc. f_equal.
    by rewrite <- patchRecords_app.
Qed.

(** What a successful build returns as the list of patches. *)
Lemma convertAndPatchToHttpRequest_records step w baseUrl queryParams :
  ExtractUrl env step = inl (baseUrl, queryParams) ->
  exists req,
    convertAndPatchToHttpRequest env step w
    = (req, patchRecords env w (templatedFields env step w baseUrl queryParams), None).
Proof.
  intros Hurl. unfold convertAndPatchToHttpRequest. rewrite Hurl.
  rewrite !patch_spec.
  pose proof (patchMap_records w paramLabel queryParams
                ([] ++ patchRecords env w [("body"%string, Model.Step_Body step)]
                    ++ patchRecords env w [("URL"%string, baseUrl)])) as Hparams.
  rewrite <- app_assoc in Hparams |- *.
  destruct (patchMap env w paramLabel queryParams _) as [params result1].
  cbn [snd] in Hparams. subst result1.
  pose proof (patchMap_records w headerLabel
                (overrideHeaders env w (flattenHeaders env (Model.Step_Headers step)))
                ([] ++ patchRecords env w [("body"%string, Model.Step_Body step)]
                    ++ patchRecords env w [("URL"%string, baseUrl)]
                    ++ patchRecords env w
                         ((fun kv => (paramLabel kv.1, kv.2)) <$> range env queryParams)))
    as Hheaders.
  rewrite <- !app_assoc in Hheaders |- *.
  destruct (patchMap env w headerLabel _ _) as [headers result2].
  cbn [snd] in Hheaders. subst result2.
  eexists. f_equal. f_equal. unfold templatedFields.
  rewrite !patchRecords_app. cbn [app].
  change [("body"%string, Model.Step_Body step); ("URL"%string, baseUrl)]
    with ([("body"%string, Model.Step_Body step)] ++ [("URL"%string, baseUrl)]).
  by rewrite patchRecords_app, <- !app_assoc.
Qed.

End Builder.

Section BuilderClaims.

Context {Assertion ResultAssertion : Type}.
Variable env : Collaborators Assertion ResultAssertion.

Implicit Types (w : World Assertion) (step : Model.Step Assertion).

(** A [range] loop visits every entry of the map once. *)
Hypothesis range_visits_each_entry_once :
  forall m : gmap string string, range env m ≡ₚ map_to_list m.

Lemma range_keys_NoDup (m : gmap string string) : NoDup (range env m).*1.
Proof.
  rewrite (range_visits_each_entry_once m). apply NoDup_fst_map_to_list.
Qed.

Lemma closing_bracket_inj (k k' : string) : k +:+ "]" = k' +:+ "]" -> k = k'.
Proof.
  revert k'. induction k as [| c k IH]; intros [| c' k']; cbn; intros Heq.
  - done.
  - injection Heq as _ Heq. by destruct k'.
  - injection Heq as _ Heq. by destruct k.
  - injection Heq as -> Heq. f_equal. by apply IH.
Qed.

Lemma NoDup_fst_functional {A B} (l : list (A * B)) x y1 y2 :
  NoDup l.*1 -> (x, y1) ∈ l -> (x, y2) ∈ l -> y1 = y2.
Proof.
  induction l as [| [a b] l IH]; cbn; [by intros _ ?%not_elem_of_nil |].
  rewrite NoDup_cons, !elem_of_cons. intros [Hfresh Hnodup] [H1 | H1] [H2 | H2].
  - congruence.
  - injection H1 as -> ->. destruct Hfresh.
    apply list_elem_of_fmap. by exists (a, y2).
  - injection H2 as -> ->. destruct Hfresh.
    apply list_elem_of_fmap. by exists (a, y1).
  - by apply IH.
Qed.

#[local] Instance paramLabel_inj : Inj (=) (=) paramLabel.
Proof.
  intros k k' Heq. unfold paramLabel in Heq.
  apply (inj (String.app "params[")) in Heq. by apply closing_bracket_inj.
Qed.

#[local] Instance headerLabel_inj : Inj (=) (=) headerLabel.
Proof. intros k k' Heq. by apply (inj (String.app "headers.")) in Heq. Qed.

(** No two templated fields share an identifier. *)
Lemma templatedFields_NoDup step w baseUrl queryParams :
  NoDup (templatedFields env step w baseUrl queryParams).*1.
Proof.
  unfold templatedFields. rewrite !fmap_app, <- !list_fmap_compose.
  cbn [app fmap list_fmap fst].
  assert (Hlabels : forall (label : string -> string) (l : list (string * string)),
             (fst ∘ (fun kv => (label kv.1, kv.2))) <$> l = label <$> l.*1).
  { intros label l. rewrite <- list_fmap_compose. by apply list_fmap_ext. }
  rewrite !Hlabels.
  repeat first [apply NoDup_cons; split | apply NoDup_app; split].
  - rewrite not_elem_of_cons, elem_of_app, !list_elem_of_fmap.
    split; [done |]. intros [(k & Heq & _) | (k & Heq & _)]; discriminate Heq.
  - rewrite elem_of_app, !list_elem_of_fmap.
    intros [(k & Heq & _) | (k & Heq & _)]; discriminate Heq.
  - apply NoDup_fmap_2; [apply _ | apply range_keys_NoDup].
  - split; [| apply NoDup_fmap_2; [apply _ | apply range_keys_NoDup]].
    intros x (k & -> & _)%list_elem_of_fmap (k' & Heq & _)%list_elem_of_fmap.
    discriminate Heq.
Qed.


End BuilderClaims.

(** ** The claims on the sample inputs *)

(** C1 on the body [{"user":{"name":"ann","tags":[]}}] and the declaration
    of [id] from [user.id], a field the body does not have: two records. *)
Lemma attach_json_query_failure_witness :
  attachVariablesToContext Sample.online Sample.response ([] ++ [Sample.userId]) Sample.w0
  = (Sample.w0,
     [] ++ [failed "id" "Object does not contain field id";
            failed "id" "type %!s(<nil>) not valid type to export as a variable"]).
Proof.
  apply (attach_json_query_failure Sample.online Sample.response [] Sample.userId
           Sample.w0 Sample.w0 [] "Object does not contain field id");
    [done | reflexivity | reflexivity | reflexivity].
Defined.

(** C8 on the header [X-Req-Id: ["abc"]] and the declaration of [rid], and
    on a response without that header. *)
Lemma attach_response_header_witness :
  (attachVariablesToContext Sample.online Sample.response ([] ++ [Sample.rid]) Sample.w0
   = (Add "rid" "abc" Sample.w0,
      [] ++ [Model.mkResultVariable "rid" "abc" None Model.Created])
   /\ store (Add "rid" "abc" Sample.w0) !! "rid" = Some "abc"%string)
  /\ attachVariablesToContext Sample.online Sample.longest ([] ++ [Sample.rid]) Sample.w0
     = (Sample.w0, []).
Proof.
  split.
  - destruct (attach_response_header Sample.online Sample.response [] Sample.rid
                Sample.w0 Sample.w0 []) as [Hpresent _];
      [done | reflexivity | reflexivity |].
    apply (Hpresent "abc"%string []). reflexivity.
  - destruct (attach_response_header Sample.online Sample.longest [] Sample.rid
                Sample.w0 Sample.w0 []) as [_ Habsent];
      [done | reflexivity | reflexivity |].
    apply Habsent. reflexivity.
Defined.

(** C9 on an elapsed time of 123.6 ms: the stored value is 124. *)
Lemma attach_response_time_witness :
  attachVariablesToContext Sample.online Sample.response ([] ++ [Sample.elapsed]) Sample.w0
  = (Add "elapsed" "124" Sample.w0,
     [] ++ [Model.mkResultVariable "elapsed" "124" None Model.Created])
  /\ store (Add "elapsed" "124" Sample.w0) !! "elapsed" = Some "124"%string.
Proof.
  apply (attach_response_time Sample.online Sample.response [] Sample.elapsed
           Sample.w0 Sample.w0 []);
    [done | reflexivity | by vm_compute | by vm_compute | reflexivity].
Defined.

(** C3 on a transport that refuses the connection. *)
Lemma run_transport_failure_witness :
  exists result w',
    Run Sample.refused Sample.step Sample.w1
    = Returned (result, Some "connection refused"%string) w'
    /\ Rest.Request_BaseURL (Model.ResultStep_Request result) = "http://api/users"%string
    /\ Model.ResultStep_Response result = Model.Response_zero
    /\ Model.ResultStep_Assertion result = []
    /\ Model.ResultStep_VariableCreated result = []
    /\ store w' = store Sample.w1.
Proof.
  destruct (run_transport_failure Sample.refused Sample.step Sample.w1
              (convertAndPatchToHttpRequest Sample.refused Sample.step Sample.w1).1.1
              (convertAndPatchToHttpRequest Sample.refused Sample.step Sample.w1).1.2
              None "connection refused"%string)
    as (result & w' & Hrun & Hreq & Hresp & Hassert & Hcreated & Hstore & _);
    [reflexivity | vm_compute; reflexivity | reflexivity |].
  exists result, w'. rewrite Hreq.
  split; [exact Hrun |]. split; [vm_compute; reflexivity |].
  repeat (split; [assumption |]). assumption.
Defined.

(** C10 on the same transport and a clock that advances by 123.6 ms. *)
Lemma run_transport_failure_step_time_witness :
  exists result w',
    Run Sample.refused Sample.step Sample.w1
    = Returned (result, Some "connection refused"%string) w'
    /\ Model.ResultStep_StepTime result = 123600000
    /\ Model.ResultStep_Response result = Model.Response_zero
    /\ Model.ResultStep_Assertion result = []
    /\ Model.ResultStep_VariableCreated result = [].
Proof.
  destruct (run_transport_failure_step_time Sample.refused Sample.step Sample.w1
              (convertAndPatchToHttpRequest Sample.refused Sample.step Sample.w1).1.1
              (convertAndPatchToHttpRequest Sample.refused Sample.step Sample.w1).1.2
              None "connection refused"%string)
    as (result & w' & Hrun & Htime & Hrest);
    [reflexivity | vm_compute; reflexivity | reflexivity |].
  exists result, w'. rewrite Htime.
  split; [exact Hrun |]. split; [vm_compute; reflexivity | exact Hrest].
Defined.

(** C6 on a step whose URL is not one that can be decomposed. *)
Lemma run_build_failure_witness :
  exists result,
    Run Sample.online Sample.badStep Sample.w1
    = Returned (result, Some "impossible to convert the request"%string) Sample.w1
    /\ Model.ResultStep_Assertion result = []
    /\ Model.ResultStep_VariableCreated result = [].
Proof.
  apply (run_build_failure Sample.online Sample.badStep Sample.w1
           "parse http://[::1: invalid URI for request");
    reflexivity.
Defined.

(** C7 on a step with the assertions 200 and 404 and a response of status
    200: two outcomes, in that order. *)
Lemma run_asserts_then_extracts_witness :
  exists result w3,
    Run Sample.online Sample.step Sample.w1 = Returned (result, None) w3
    /\ length (Model.ResultStep_Assertion result) = 2%nat
    /\ Model.ResultStep_Assertion result !! 0%nat = Some true
    /\ Model.ResultStep_Assertion result !! 1%nat = Some false.
Proof.
  destruct (run_asserts_then_extracts Sample.online Sample.step Sample.w1
              (convertAndPatchToHttpRequest Sample.online Sample.step Sample.w1).1.1
              (convertAndPatchToHttpRequest Sample.online Sample.step Sample.w1).1.2
              Sample.answer Sample.response)
    as (result & w3 & adds & Hrun & Hlen & Hnth & _);
    [reflexivity | vm_compute; reflexivity | reflexivity | reflexivity |].
  exists result, w3. split; [exact Hrun |]. split; [exact Hlen |].
  split; [exact (Hnth 0%nat 200 eq_refl) | exact (Hnth 1%nat 404 eq_refl)].
Defined.

(** C5, as stated, fails on a step whose request cannot be built: the
    result is the empty one, and carries neither the kind of the step nor
    the method or the body of the request that was attempted. *)
Lemma run_build_failure_counterexample :
  Run Sample.online Sample.badStep Sample.w1
  = Returned (Model.ResultStep_zero, Some "impossible to convert the request"%string)
             Sample.w1
  /\ Model.ResultStep_StepType (@Model.ResultStep_zero bool)
     ≠ Model.Step_StepType Sample.badStep
  /\ Rest.Request_Method (Model.ResultStep_Request (@Model.ResultStep_zero bool))
     ≠ Model.Step_Method Sample.badStep
  /\ Rest.Request_Body (Model.ResultStep_Request (@Model.ResultStep_zero bool))
     ≠ Model.Step_Body Sample.badStep.
Proof. vm_compute. repeat split; discriminate. Qed.

(** C5, amended, on a step that is built and then refused by the
    transport: the result carries the kind, the request and three patches. *)
Lemma run_result_structure_witness :
  exists result err w',
    Run Sample.refused Sample.step Sample.w1 = Returned (result, err) w'
    /\ Model.ResultStep_StepType result = Model.RequestStep
    /\ Rest.Request_Method (Model.ResultStep_Request result) = "GET"%string
    /\ length (Model.ResultStep_VariableApplied result) = 3%nat.
Proof.
  destruct (run_result_structure Sample.refused Sample.step Sample.w1)
    as (_ & Hbuilt & _).
  destruct (Hbuilt eq_refl
              (convertAndPatchToHttpRequest Sample.refused Sample.step Sample.w1).1.1
              (convertAndPatchToHttpRequest Sample.refused Sample.step Sample.w1).1.2)
    as (result & err & w' & Hrun & Hkind & Hreq & Happlied & _);
    [vm_compute; reflexivity | vm_compute; discriminate |].
  exists result, err, w'. rewrite Hreq, Happlied.
  split; [exact Hrun |]. split; [exact Hkind |].
  split; vm_compute; reflexivity.
Defined.


(** The status 404 is stored as [404]. *)
Lemma attach_response_status_witness :
  attachVariablesToContext Sample.online (Model.mkResponse 404 ∅ INil 0)
    ([] ++ [Model.mkVariable "code" Model.ResponseStatus ""]) Sample.w0
  = (Add "code" "404" Sample.w0, [] ++ [created "code" "404"]).
Proof.
  apply (attach_response_status Sample.online (Model.mkResponse 404 ∅ INil 0) []
           (Model.mkVariable "code" Model.ResponseStatus "") Sample.w0 Sample.w0 []);
    [done | reflexivity | reflexivity].
Defined.

(** The string leaf [user.name] is stored as it is. *)
Lemma attach_json_supported_leaf_witness :
  attachVariablesToContext Sample.online Sample.response ([] ++ [Sample.userName]) Sample.w0
  = (Add "name" "ann" Sample.w0, [] ++ [created "name" "ann"]).
Proof.
  apply (attach_json_supported_leaf Sample.online Sample.response [] Sample.userName
           Sample.w0 Sample.w0 [] (IString "ann") "ann");
    [done | reflexivity | reflexivity | reflexivity | reflexivity].
Defined.

(** The array leaf [user.tags] is not stored and leaves one record. *)
Lemma attach_json_unsupported_leaf_witness :
  attachVariablesToContext Sample.online Sample.response
    ([] ++ [Model.mkVariable "tags" Model.ResponseJson "user.tags"]) Sample.w0
  = (Sample.w0,
     [] ++ [failed "tags"
              "type []interface {} not valid type to export as a variable"]).
Proof.
  apply (attach_json_unsupported_leaf Sample.online Sample.response []
           (Model.mkVariable "tags" Model.ResponseJson "user.tags")
           Sample.w0 Sample.w0 [] (ISlice []));
    [done | reflexivity | reflexivity | exact I | reflexivity].
Defined.

(** * More of the controller *)

(** ** The extractor as a whole *)

Section ExtractionMore.

Context {Assertion ResultAssertion : Type}.
Variable env : Collaborators Assertion ResultAssertion.

Implicit Types (w : World Assertion) (result : list Model.ResultVariable).
Implicit Types (response : Model.Response) (variable : Model.Variable_).

Lemma written_app records1 records2 :
  written (records1 ++ records2) = written records1 ++ written records2.
Proof. apply omap_app. Qed.

Lemma applyWrites_app writes1 writes2 w :
  applyWrites (writes1 ++ writes2) w = applyWrites writes2 (applyWrites writes1 w).
Proof. apply foldl_app. Qed.

Lemma applyWrites_spec writes w :
  applyWrites writes w
  = mkWorld Assertion (insertAll writes (store w)) (ticks w)
      (trace w ++ ((fun kv => EvAdd kv.1 kv.2) <$> writes)).
Proof.
  revert w. induction writes as [| kv writes IH]; intros w.
  - destruct w. cbn. by rewrite app_nil_r.
  - change (applyWrites (kv :: writes) w) with (applyWrites writes (Add kv.1 kv.2 w)).
    rewrite IH. unfold insertAll. cbn. by rewrite <- app_assoc.
Qed.

(** One turn of the loop appends the records of the declaration and makes
    the writes they stand for; neither depends on the world or on the
    records so far. *)
Lemma attachVariable_extracted response variable w result :
  attachVariable env response (w, result) variable
  = (applyWrites (written (extracted env response variable)) w,
     result ++ extracted env response variable).
Proof.
  unfold extracted, attachVariable.
  destruct (String.length _ =? 0)%nat; [by rewrite app_nil_r |].
  destruct (Model.Variable_Source variable); cbn; try done.
  - destruct (_ !! _) as [[| h0 hs] |]; cbn; by rewrite ?app_nil_r.
  - destruct (Interface _ _ _) as [err | leaf]; cbn.
    + by rewrite <- app_assoc.
    + by destruct leaf.
  - by rewrite app_nil_r.
Qed.

Lemma attachVariablesToContext_extracted response vars w :
  attachVariablesToContext env response vars w
  = (applyWrites (written (vars ≫= extracted env response)) w,
     vars ≫= extracted env response).
Proof.
  induction vars as [| variable vars IH] using rev_ind; [done |].
  rewrite attachVariablesToContext_snoc, IH, attachVariable_extracted.
  rewrite bind_app, written_app, applyWrites_app. cbn.
  by rewrite !app_nil_r.
Qed.

(** What one declaration can leave. *)
Lemma extracted_cases response variable :
  let name := Model.Variable_Name variable in
  extracted env response variable = []
  \/ (name ≠ "" /\ exists value, extracted env response variable = [created name value])
  \/ (name ≠ "" /\ Model.Variable_Source variable = Model.ResponseJson
      /\ exists err, extracted env response variable = [failed name err])
  \/ (name ≠ "" /\ Model.Variable_Source variable = Model.ResponseJson
      /\ exists err err', extracted env response variable
                          = [failed name err; failed name err']).
Proof.
  unfold extracted, attachVariable. cbn zeta.
  destruct (Model.Variable_Name variable) as [| c name] eqn:Hname; [by left |].
  cbn [String.length Nat.eqb].
  destruct (Model.Variable_Source variable); cbn; eauto 8.
  - destruct (_ !! _) as [[| h0 hs] |]; cbn; eauto 8.
  - destruct (Interface _ _ _) as [err | leaf]; cbn.
    + do 3 right. eauto 8.
    + destruct leaf; cbn; eauto 10.
Qed.

Lemma silent_extracted response variable :
  silent response variable <-> extracted env response variable = [].
Proof.
  unfold silent, extracted, attachVariable.
  destruct (Model.Variable_Name variable) as [| c name] eqn:Hname; [tauto |].
  cbn [String.length Nat.eqb].
  destruct (Model.Variable_Source variable) eqn:Hsrc; cbn.
  - split; [intros [? | [[s ?] | [? _]]]; done | done].
  - split; [intros [? | [[s ?] | [? _]]]; done | done].
  - destruct (_ !! _) as [[| h0 hs] |]; cbn.
    + split; [done | eauto].
    + split; [intros [? | [[s ?] | [_ [? | ?]]]]; done | done].
    + split; [done | eauto].
  - destruct (Interface _ _ _) as [err | leaf]; cbn.
    + split; [intros [? | [[s ?] | [? _]]]; done | done].
    + split; [intros [? | [[s ?] | [? _]]]; done | by destruct leaf].
  - split; [done | eauto].
Qed.

Lemma insertAll_app writes1 writes2 (st : gmap string string) :
  insertAll (writes1 ++ writes2) st = insertAll writes2 (insertAll writes1 st).
Proof. apply foldl_app. Qed.

Lemma insertAll_lookup_other writes (st : gmap string string) key :
  key ∉ writes.*1 -> insertAll writes st !! key = st !! key.
Proof.
  revert st. induction writes as [| kv writes IH]; intros st Hkey; [done |].
  cbn in Hkey. apply not_elem_of_cons in Hkey as [Hne Hkey].
  change (insertAll (kv :: writes) st) with (insertAll writes (<[kv.1 := kv.2]> st)).
  rewrite IH by done. by apply lookup_insert_ne.
Qed.

(** A record of a declaration is a Created record under the name of the
    declaration, which is not empty, and has a value or an error. *)
Lemma extracted_record response variable r :
  r ∈ extracted env response variable ->
  Model.ResultVariable_Type r = Model.Created
  /\ Model.ResultVariable_Key r = Model.Variable_Name variable
  /\ Model.Variable_Name variable ≠ ""
  /\ (Model.ResultVariable_Err r = None \/ Model.ResultVariable_NewValue r = "").
Proof.
  destruct (extracted_cases response variable)
    as [-> | [(Hname & value & ->) | [(Hname & _ & err & ->)
                                     | (Hname & _ & err & err' & ->)]]];
    rewrite ?elem_of_cons; intros Hr.
  - by apply not_elem_of_nil in Hr.
  - destruct Hr as [-> | Hr]; [cbn; auto | by apply not_elem_of_nil in Hr].
  - destruct Hr as [-> | Hr]; [cbn; auto | by apply not_elem_of_nil in Hr].
  - destruct Hr as [-> | [-> | Hr]]; [cbn; auto | cbn; auto |
                                      by apply not_elem_of_nil in Hr].
Qed.

Lemma extracted_length response variable :
  (length (extracted env response variable) <= 2)%nat.
Proof.
  destruct (extracted_cases response variable)
    as [-> | [(_ & value & ->) | [(_ & _ & err & ->) | (_ & _ & err & err' & ->)]]];
    cbn; lia.
Qed.

Lemma written_cons_value r records :
  Model.ResultVariable_Err r = None ->
  written (r :: records)
  = (Model.ResultVariable_Key r, Model.ResultVariable_NewValue r) :: written records.
Proof. intros Herr. unfold written. cbn. by rewrite Herr. Qed.

Lemma written_keys records key :
  key ∈ (written records).*1 ->
  exists r, r ∈ records /\ Model.ResultVariable_Key r = key
            /\ Model.ResultVariable_Err r = None.
Proof.
  intros ([k v] & -> & Hkv)%list_elem_of_fmap.
  apply list_elem_of_omap in Hkv as (r & Hr & Hwrite).
  exists r. destruct (Model.ResultVariable_Err r); [done |].
  injection Hwrite as <- _. done.
Qed.

(** The store, the trace and the clock after an extraction. *)
Lemma extraction_writes_its_records_aux response vars w :
  store (attachVariablesToContext env response vars w).1
  = insertAll (written (attachVariablesToContext env response vars w).2) (store w)
  /\ trace (attachVariablesToContext env response vars w).1
     = trace w ++ ((fun kv => EvAdd kv.1 kv.2)
                     <$> written (attachVariablesToContext env response vars w).2)
  /\ ticks (attachVariablesToContext env response vars w).1 = ticks w.
Proof.
  rewrite attachVariablesToContext_extracted. cbn [fst snd].
  by rewrite applyWrites_spec.
Qed.

(** X4. Extraction changes the store by the writes of its successful
    records and by nothing else: the store it leaves is the store it found
    with the value of every record that has no error written under the key
    of the record, in the order of the records; these writes are all that it
    adds to the trace, and it does not read the clock. *)
Theorem extraction_writes_its_records response vars w :
  store (attachVariablesToContext env response vars w).1
  = insertAll (written (attachVariablesToContext env response vars w).2) (store w)
  /\ trace (attachVariablesToContext env response vars w).1
     = trace w ++ ((fun kv => EvAdd kv.1 kv.2)
                     <$> written (attachVariablesToContext env response vars w).2)
  /\ ticks (attachVariablesToContext env response vars w).1 = ticks w.
Proof. apply extraction_writes_its_records_aux. Qed.

(** X5. Extraction leaves alone every variable that no declaration names:
    a key that is not the name of a declaration has, after the extraction,
    the value it had before. *)
Theorem extraction_frame response vars w key :
  key ∉ Model.Variable_Name <$> vars ->
  store (attachVariablesToContext env response vars w).1 !! key = store w !! key.
Proof.
  intros Hkey. rewrite attachVariablesToContext_extracted. cbn [fst].
  rewrite applyWrites_spec. cbn [store].
  apply insertAll_lookup_other. intros (r & Hr & Hk & _)%written_keys.
  apply list_elem_of_bind in Hr as (variable & Hr & Hvariable).
  apply extracted_record in Hr as (_ & Hname & _).
  apply Hkey, list_elem_of_fmap. exists variable. split; [congruence | done].
Qed.

(** X6. Every record of an extraction is a Created record whose key is the
    name, not empty, of one of the declarations, and it carries a value or
    an error, never both; there are at most two records for each
    declaration. *)
Theorem extraction_records_invariant response vars w :
  Forall (fun r =>
            Model.ResultVariable_Type r = Model.Created
            /\ Model.ResultVariable_Key r ≠ ""
            /\ Model.ResultVariable_Key r ∈ Model.Variable_Name <$> vars
            /\ (Model.ResultVariable_Err r = None
                \/ Model.ResultVariable_NewValue r = ""))
         (attachVariablesToContext env response vars w).2
  /\ (length (attachVariablesToContext env response vars w).2 <= 2 * length vars)%nat.
Proof.
  rewrite attachVariablesToContext_extracted. cbn [snd]. split.
  - apply Forall_forall. intros r (variable & Hr & Hvariable)%list_elem_of_bind.
    apply extracted_record in Hr as (Htype & Hkey & Hname & Hvalue).
    split; [done |]. split; [congruence |]. split; [| done].
    apply list_elem_of_fmap. by exists variable.
  - induction vars as [| variable vars IH]; [done |].
    rewrite bind_cons, length_app. cbn [length].
    pose proof (extracted_length response variable). lia.
Qed.

(** X7. A declaration is passed over in silence, leaving the records and
    the world exactly as the declarations before it left them, in these
    cases and in no other: it has no name, or its source is none of the four
    the switch knows, or it names a header that the response lacks or has
    with an empty list of values. *)
Theorem declaration_silent_iff response vars variable w :
  attachVariablesToContext env response (vars ++ [variable]) w
  = attachVariablesToContext env response vars w
  <-> silent response variable.
Proof.
  rewrite !attachVariablesToContext_extracted, bind_app, silent_extracted.
  cbn. rewrite app_nil_r. split.
  - intros Heq. injection Heq as _ Heq.
    by apply (app_inv_head (vars ≫= extracted env response) _ []); rewrite app_nil_r.
  - intros ->. by rewrite app_nil_r.
Qed.

(** X8. Extraction composes: the declarations of a list are handled as if
    the list were cut anywhere, the second part starting from the world the
    first part left; and the records do not depend on the world at all, so
    the records of the whole list are the records of its parts, whatever
    the store held. *)
Theorem extraction_composes response vars1 vars2 w :
  (attachVariablesToContext env response (vars1 ++ vars2) w).1
  = (attachVariablesToContext env response vars2
       (attachVariablesToContext env response vars1 w).1).1
  /\ forall w',
      (attachVariablesToContext env response (vars1 ++ vars2) w).2
      = (attachVariablesToContext env response vars1 w).2
        ++ (attachVariablesToContext env response vars2 w').2.
Proof.
  rewrite !attachVariablesToContext_extracted. cbn [fst snd]. split.
  - by rewrite bind_app, written_app, applyWrites_app.
  - intros w'. by rewrite attachVariablesToContext_extracted, bind_app.
Qed.

(** X9. The last write wins: when a record without an error is followed
    by no other record without an error under the same key, the store holds
    the value of that record under its key once the extraction is over. *)
Theorem extraction_last_write_wins response vars w before r after :
  (attachVariablesToContext env response vars w).2 = before ++ r :: after ->
  Model.ResultVariable_Err r = None ->
  Forall (fun r' => Model.ResultVariable_Key r' = Model.ResultVariable_Key r ->
                    Model.ResultVariable_Err r' ≠ None) after ->
  store (attachVariablesToContext env response vars w).1 !! Model.ResultVariable_Key r
  = Some (Model.ResultVariable_NewValue r).
Proof.
  intros Hrecords Herr Hafter.
  destruct (extraction_writes_its_records_aux response vars w) as [-> _].
  rewrite Hrecords, written_app, (written_cons_value r after Herr).
  rewrite insertAll_app.
  change (insertAll (?kv :: written after) ?st)
    with (insertAll (written after) (<[kv.1 := kv.2]> st)).
  rewrite insertAll_lookup_other; [apply lookup_insert_eq |].
  intros (r' & Hr' & Hkey & Herr')%written_keys.
  rewrite Forall_forall in Hafter. by apply (Hafter r').
Qed.

End ExtractionMore.

(** ** The request that is built *)

Section BuilderMore.

Context {Assertion ResultAssertion : Type}.
Variable env : Collaborators Assertion ResultAssertion.

Implicit Types (w : World Assertion) (step : Model.Step Assertion).

(** A [range] loop visits every entry of the map once, whatever the map
    holds. *)
Hypothesis range_visits_each_entry_once :
  forall (A : Type) (m : gmap string A), range env m ≡ₚ map_to_list m.

Lemma range_NoDup {A} (m : gmap string A) : NoDup (range env m).*1.
Proof. rewrite (range_visits_each_entry_once A m). apply NoDup_fst_map_to_list. Qed.

Lemma range_list_to_map {A} (m : gmap string A) : list_to_map (range env m) = m.
Proof.
  rewrite <- (list_to_map_to_list m) at 2.
  apply list_to_map_proper; [apply range_NoDup | apply range_visits_each_entry_once].
Qed.

Lemma elem_of_range {A} (m : gmap string A) k v :
  (k, v) ∈ range env m <-> m !! k = Some v.
Proof. rewrite (range_visits_each_entry_once A m). apply elem_of_map_to_list. Qed.

(** A loop that stores [g value] under every key it visits. *)
Lemma foldl_insert_lookup {A} (g : A -> string) (l : list (string * A))
    (h0 : gmap string string) k :
  NoDup l.*1 ->
  foldl (fun h kv => <[kv.1 := g kv.2]> h) h0 l !! k
  = match (list_to_map l : gmap string A) !! k with
    | Some v => Some (g v)
    | None => h0 !! k
    end.
Proof.
  revert h0. induction l as [| [k' v'] l IH]; intros h0 Hnodup; [done |].
  cbn in Hnodup. apply NoDup_cons in Hnodup as [Hfresh Hnodup].
  cbn [foldl fst snd]. rewrite IH by done. rewrite list_to_map_cons.
  destruct (decide (k' = k)) as [-> | Hne].
  - rewrite lookup_insert_eq.
    by rewrite (proj1 (not_elem_of_list_to_map l k) Hfresh), lookup_insert_eq.
  - rewrite (lookup_insert_ne (list_to_map l)) by done.
    destruct (list_to_map l !! k); [done | by apply lookup_insert_ne].
Qed.

(** A loop that stores the first value under every key that has one. *)
Lemma foldl_first_value_lookup (l : list (string * list string))
    (h0 : gmap string string) k :
  NoDup l.*1 ->
  foldl (fun headers kv =>
           match kv.2 with
           | v0 :: _ => <[kv.1 := v0]> headers
           | [] => headers
           end) h0 l !! k
  = match (list_to_map l : gmap string (list string)) !! k with
    | Some (v0 :: _) => Some v0
    | _ => h0 !! k
    end.
Proof.
  revert h0. induction l as [| [k' vs] l IH]; intros h0 Hnodup; [done |].
  cbn in Hnodup. apply NoDup_cons in Hnodup as [Hfresh Hnodup].
  cbn [foldl fst snd]. rewrite IH by done. rewrite list_to_map_cons.
  destruct (decide (k' = k)) as [-> | Hne].
  - rewrite lookup_insert_eq.
    rewrite (proj1 (not_elem_of_list_to_map l k) Hfresh).
    destruct vs; [done | apply lookup_insert_eq].
  - rewrite (lookup_insert_ne (list_to_map l)) by done.
    destruct (list_to_map l !! k) as [[| v0 vs'] |]; try done;
      destruct vs; try done; by apply lookup_insert_ne.
Qed.

Lemma flattenHeaders_lookup (hs : gmap string (list string)) k :
  flattenHeaders env hs !! k = hs !! k ≫= head.
Proof.
  unfold flattenHeaders. rewrite foldl_first_value_lookup by apply range_NoDup.
  rewrite range_list_to_map. by destruct (hs !! k) as [[| v0 vs] |].
Qed.

Lemma overrideHeaders_lookup w (headers : gmap string string) k :
  overrideHeaders env w headers !! k
  = match configHeaders env !! k with
    | Some v => Some (Patch env (store w) v)
    | None => headers !! k
    end.
Proof.
  unfold overrideHeaders.
  rewrite (foldl_insert_lookup (Patch env (store w))) by apply range_NoDup.
  by rewrite range_list_to_map.
Qed.

(** The merged headers: a header of the command line, patched, wins over a
    header of the step, of which the first value is kept. *)
Lemma mergedHeaders_lookup step w k :
  mergedHeaders env step w !! k
  = match configHeaders env !! k with
    | Some v => Some (Patch env (store w) v)
    | None => Model.Step_Headers step !! k ≫= head
    end.
Proof.
  unfold mergedHeaders. rewrite overrideHeaders_lookup.
  by rewrite flattenHeaders_lookup.
Qed.

(** The map that the patching loop leaves does not depend on the records
    it was given. *)
Lemma patchMap_map w label (m : gmap string string) result :
  (patchMap env w label m result).1 = Patch env (store w) <$> m.
Proof.
  assert (Hfold : forall l (m0 : gmap string string) r0,
             (foldl (fun st kv =>
                       let '(patched, result') := patch env w kv.2 (label kv.1) st.2 in
                       (<[kv.1 := patched]> st.1, result'))
                    (m0, r0) l).1
             = foldl (fun h kv => <[kv.1 := Patch env (store w) kv.2]> h) m0 l).
  { induction l as [| kv l IH]; intros m0 r0; [done |].
    cbn [foldl]. rewrite patch_spec. cbn [fst snd]. apply IH. }
  unfold patchMap. rewrite Hfold. apply map_eq. intros k.
  rewrite (foldl_insert_lookup (Patch env (store w))) by apply range_NoDup.
  rewrite range_list_to_map, lookup_fmap. by destruct (m !! k).
Qed.

(** The request of a successful build, field by field. *)
Lemma convertAndPatchToHttpRequest_request step w baseUrl queryParams :
  ExtractUrl env step = inl (baseUrl, queryParams) ->
  (convertAndPatchToHttpRequest env step w).1.1
  = Rest.mkRequest (Model.Step_Method step) (Patch env (store w) baseUrl)
      (Patch env (store w) <$> mergedHeaders env step w)
      (Patch env (store w) <$> queryParams)
      (Patch env (store w) (Model.Step_Body step)).
Proof.
  intros Hurl. unfold convertAndPatchToHttpRequest. rewrite Hurl.
  rewrite !patch_spec.
  set (result1 := ([] ++ _) ++ _).
  pose proof (patchMap_map w paramLabel queryParams result1) as Hparams.
  destruct (patchMap env w paramLabel queryParams result1) as [params result2].
  pose proof (patchMap_map w headerLabel
                (overrideHeaders env w (flattenHeaders env (Model.Step_Headers step)))
                result2) as Hheaders.
  destruct (patchMap env w headerLabel _ result2) as [headers result3].
  cbn [fst snd] in *. by subst.
Qed.

Lemma patchRecords_elem w fields r :
  r ∈ patchRecords env w fields
  <-> exists f, f ∈ fields /\ f.2 ≠ Patch env (store w) f.2
                /\ r = Model.mkResultVariable f.1 (Patch env (store w) f.2) None
                         Model.Used.
Proof.
  unfold patchRecords. rewrite list_elem_of_fmap. split.
  - intros (f & -> & [Hchanged Hf]%list_elem_of_filter). eauto.
  - intros (f & Hf & Hchanged & ->). exists f. split; [done |].
    by apply list_elem_of_filter.
Qed.

(** The header fields among the templated fields are the merged headers. *)
Lemma header_field_iff step w baseUrl queryParams k v :
  (headerLabel k, v) ∈ templatedFields env step w baseUrl queryParams
  <-> mergedHeaders env step w !! k = Some v.
Proof.
  unfold templatedFields. fold (mergedHeaders env step w).
  rewrite elem_of_app, !elem_of_cons, elem_of_app, !list_elem_of_fmap.
  rewrite <- elem_of_range. split.
  - intros [[Heq | [Heq | Hnil]] | [([k' v'] & Heq & _) | ([k' v'] & Heq & Hkv)]];
      try discriminate Heq.
    + by apply not_elem_of_nil in Hnil.
    + cbn [fst snd] in Heq.
      assert (Hk : headerLabel k = headerLabel k') by congruence.
      assert (Hv : v = v') by congruence.
      apply (inj headerLabel) in Hk. by subst.
  - intros Hkv. right. right. by exists (k, v).
Qed.

(** X10. The request of a successful build: the method of the step; the
    base URL, the body and every query parameter, patched; and the headers,
    patched, where a header of the command line, which was already patched
    when it was merged, wins over a header of the step with the same name,
    a header of the step keeps only its first value, and a header of the
    step with no value is dropped. *)
Theorem built_request_contents step w baseUrl queryParams :
  ExtractUrl env step = inl (baseUrl, queryParams) ->
  exists req records,
    convertAndPatchToHttpRequest env step w = (req, records, None)
    /\ Rest.Request_Method req = Model.Step_Method step
    /\ Rest.Request_BaseURL req = Patch env (store w) baseUrl
    /\ Rest.Request_Body req = Patch env (store w) (Model.Step_Body step)
    /\ Rest.Request_QueryParams req = Patch env (store w) <$> queryParams
    /\ forall k,
        Rest.Request_Headers req !! k
        = match configHeaders env !! k with
          | Some v => Some (Patch env (store w) (Patch env (store w) v))
          | None => Patch env (store w) <$> (Model.Step_Headers step !! k ≫= head)
          end.
Proof.
  intros Hurl.
  destruct (convertAndPatchToHttpRequest_records env step w _ _ Hurl) as [req Hbuild].
  pose proof (convertAndPatchToHttpRequest_request step w _ _ Hurl) as Hreq.
  rewrite Hbuild in Hreq. cbn [fst] in Hreq. subst req.
  eexists _, _. split; [exact Hbuild |]. cbn.
  repeat (split; [done |]). intros k.
  rewrite lookup_fmap, mergedHeaders_lookup.
  by destruct (configHeaders env !! k).
Qed.

(** X11. A header of the command line is patched twice, once when it is
    merged and once with the other headers, and only the second patch is
    looked at for a record: such a header has a Used record exactly when
    patching its patched value changes it again, so it has none when one
    patch resolves it. A header that comes from the step alone has a record
    exactly when patching its first value changes it. *)
Theorem header_record_iff step w baseUrl queryParams k :
  ExtractUrl env step = inl (baseUrl, queryParams) ->
  let records := (convertAndPatchToHttpRequest env step w).1.2 in
  (forall v,
      configHeaders env !! k = Some v ->
      (exists r, r ∈ records /\ Model.ResultVariable_Key r = headerLabel k)
      <-> Patch env (store w) (Patch env (store w) v) ≠ Patch env (store w) v)
  /\ (forall v0 vs,
        configHeaders env !! k = None ->
        Model.Step_Headers step !! k = Some (v0 :: vs) ->
        (exists r, r ∈ records /\ Model.ResultVariable_Key r = headerLabel k)
        <-> Patch env (store w) v0 ≠ v0).
Proof.
  intros Hurl records.
  destruct (convertAndPatchToHttpRequest_records env step w _ _ Hurl) as [req Hbuild].
  assert (Hrecord : forall v,
             mergedHeaders env step w !! k = Some v ->
             (exists r, r ∈ records /\ Model.ResultVariable_Key r = headerLabel k)
             <-> Patch env (store w) v ≠ v).
  { intros v Hmerged. unfold records. rewrite Hbuild. cbn [fst snd].
    apply header_field_iff with (baseUrl := baseUrl) (queryParams := queryParams)
      in Hmerged.
    split.
    - intros (r & (f & Hf & Hchanged & ->)%patchRecords_elem & Hkey) Hsame.
      cbn in Hkey. destruct f as [n v']. cbn in *. subst n.
      assert (v' = v) as ->; [| congruence].
      eapply NoDup_fst_functional; [| exact Hf | exact Hmerged].
      apply templatedFields_NoDup, range_visits_each_entry_once.
    - intros Hchanged.
      exists (Model.mkResultVariable (headerLabel k) (Patch env (store w) v) None
                Model.Used).
      split; [| done].
      apply patchRecords_elem. exists (headerLabel k, v).
      split; [done |]. split; [cbn; congruence | done]. }
  split.
  - intros v Hconfig. apply Hrecord. by rewrite mergedHeaders_lookup, Hconfig.
  - intros v0 vs Hconfig Hstep. apply Hrecord.
    by rewrite mergedHeaders_lookup, Hconfig, Hstep.
Qed.

End BuilderMore.

(** ** The paths of a step *)

Section EngineMore.

Context {Assertion ResultAssertion : Type}.
Variable env : Collaborators Assertion ResultAssertion.

Implicit Types (w : World Assertion) (step : Model.Step Assertion).

(** The paths through [request], one by one. *)
Lemma request_paths step w :
  (exists err,
      ExtractUrl env step = inr err
      /\ request env step w
         = Returned (Model.ResultStep_zero,
                     Some "impossible to convert the request"%string) w)
  \/ exists req variables,
      convertAndPatchToHttpRequest env step w = (req, variables, None)
      /\ ((exists res e,
              Send env (Now env w).2 req = (res, Some e)
              /\ request env step w
                 = Returned (partialResult env req variables w, Some e) (sent req w))
          \/ (Send env (Now env w).2 req = (None, None)
              /\ request env step w = Panicked (sent req w))
          \/ (exists res response e,
                Send env (Now env w).2 req = (Some res, None)
                /\ NewResponse env res (elapsedAt env w) = (response, Some e)
                /\ request env step w
                   = Returned (partialResult env req variables w, Some e) (sent req w))
          \/ (exists res response,
                Send env (Now env w).2 req = (Some res, None)
                /\ NewResponse env res (elapsedAt env w) = (response, None)
                /\ request env step w
                   = Returned
                       (Model.mkResultStep ResultAssertion Model.RequestStep req
                          response (elapsedAt env w)
                          (assertResponse env response (Model.Step_Assertions step)
                             (sent req w)).2
                          variables
                          (attachVariablesToContext env response
                             (Model.Step_Variables step)
                             (assertResponse env response
                                (Model.Step_Assertions step) (sent req w)).1).2,
                        None)
                       (attachVariablesToContext env response
                          (Model.Step_Variables step)
                          (assertResponse env response
                             (Model.Step_Assertions step) (sent req w)).1).1)).
Proof.
  destruct (ExtractUrl env step) as [[baseUrl queryParams] | err] eqn:Hurl.
  - right.
    destruct (convertAndPatchToHttpRequest_records env step w _ _ Hurl) as [req Hbuild].
    eexists _, _. split; [exact Hbuild |].
    destruct (Send env (Now env w).2 req) as [res [e |]] eqn:Hsend.
    { left. exists res, e. split; [done |].
      apply (request_send_error env _ _ _ _ _ _ Hbuild Hsend). }
    destruct res as [res |].
    2: { right. left. split; [done |].
         apply (request_send_nil env _ _ _ _ Hbuild Hsend). }
    destruct (NewResponse env res (elapsedAt env w)) as [response [e |]] eqn:Hnew.
    + right. right. left. exists res, response, e. split; [done |]. split; [done |].
      apply (request_response_error env _ _ _ _ _ _ _ Hbuild Hsend Hnew).
    + right. right. right. exists res, response. split; [done |]. split; [done |].
      apply (request_response env _ _ _ _ _ _ Hbuild Hsend Hnew).
  - left. exists err. split; [done |]. by apply (request_build_failure env step w err).
Qed.

(** The request, the patches and the world of the build in the paths that
    begin with a build that succeeds. *)
Lemma request_paths_built step w req variables :
  convertAndPatchToHttpRequest env step w = (req, variables, None) ->
  (exists res e,
      Send env (Now env w).2 req = (res, Some e)
      /\ request env step w
         = Returned (partialResult env req variables w, Some e) (sent req w))
  \/ (Send env (Now env w).2 req = (None, None)
      /\ request env step w = Panicked (sent req w))
  \/ (exists res response e,
        Send env (Now env w).2 req = (Some res, None)
        /\ NewResponse env res (elapsedAt env w) = (response, Some e)
        /\ request env step w
           = Returned (partialResult env req variables w, Some e) (sent req w))
  \/ (exists res response,
        Send env (Now env w).2 req = (Some res, None)
        /\ NewResponse env res (elapsedAt env w) = (response, None)
        /\ request env step w
           = Returned
               (Model.mkResultStep ResultAssertion Model.RequestStep req
                  response (elapsedAt env w)
                  (assertResponse env response (Model.Step_Assertions step)
                     (sent req w)).2
                  variables
                  (attachVariablesToContext env response
                     (Model.Step_Variables step)
                     (assertResponse env response
                        (Model.Step_Assertions step) (sent req w)).1).2,
                None)
               (attachVariablesToContext env response
                  (Model.Step_Variables step)
                  (assertResponse env response
                     (Model.Step_Assertions step) (sent req w)).1).1).
Proof.
  intros Hbuild.
  destruct (request_paths step w) as [(err & Hurl & _) | (req' & variables' & Hbuild' & Hpaths)].
  - rewrite (convertAndPatchToHttpRequest_error env _ _ _ Hurl) in Hbuild. done.
  - rewrite Hbuild in Hbuild'. injection Hbuild' as <- <-. exact Hpaths.
Qed.

(** X12. When the transport answers but the response cannot be turned into
    a model response, [Run] returns the error of the conversion with a
    result that carries the request, the patches and the time of the call
    and nothing else: no response, no assertion outcome, no created
    variable. The store is as it was and no assertion was evaluated. *)
Theorem run_response_parse_failure step w req variables res response e :
  Model.Step_StepType step = Model.RequestStep ->
  convertAndPatchToHttpRequest env step w = (req, variables, None) ->
  Send env (Now env w).2 req = (Some res, None) ->
  NewResponse env res (elapsedAt env w) = (response, Some e) ->
  exists result w',
    Run env step w = Returned (result, Some e) w'
    /\ Model.ResultStep_Request result = req
    /\ Model.ResultStep_VariableApplied result = variables
    /\ Model.ResultStep_StepTime result = elapsedAt env w
    /\ Model.ResultStep_Response result = Model.Response_zero
    /\ Model.ResultStep_Assertion result = []
    /\ Model.ResultStep_VariableCreated result = []
    /\ store w' = store w
    /\ trace w' = trace w ++ [EvSend req].
Proof.
  intros Hkind Hbuild Hsend Hnew.
  rewrite Run_request, (request_response_error env _ _ _ _ _ _ _ Hbuild Hsend Hnew)
    by done.
  eexists _, _. split; [reflexivity |]. by cbn.
Qed.

(** X13. A transport that hands back neither a response nor an error makes
    the step panic, on the dereference of the nil response, after the
    request was sent and timed; the store is as it was. *)
Theorem run_nil_response_panics step w req variables :
  Model.Step_StepType step = Model.RequestStep ->
  convertAndPatchToHttpRequest env step w = (req, variables, None) ->
  Send env (Now env w).2 req = (None, None) ->
  exists w',
    Run env step w = Panicked w'
    /\ store w' = store w
    /\ ticks w' = S (S (ticks w))
    /\ trace w' = trace w ++ [EvSend req].
Proof.
  intros Hkind Hbuild Hsend.
  rewrite Run_request, (request_send_nil env _ _ _ _ Hbuild Hsend) by done.
  by eexists.
Qed.

(** X14. A Request step that was built is sent exactly once, whatever
    happens next: at the end of the step, returned or panicked, the trace
    holds one [Send], of the request that was built, followed only by
    assertions and writes to the store, and the clock was read twice. There
    is no retry. *)
Theorem run_sends_once step w req variables :
  Model.Step_StepType step = Model.RequestStep ->
  convertAndPatchToHttpRequest env step w = (req, variables, None) ->
  ticks (worldOf (Run env step w)) = S (S (ticks w))
  /\ exists rest,
      trace (worldOf (Run env step w)) = trace w ++ EvSend req :: rest
      /\ Forall (fun e => match e with
                          | EvAssert _ _ | EvAdd _ _ => True
                          | _ => False
                          end) rest.
Proof.
  intros Hkind Hbuild. rewrite Run_request by done.
  destruct (request_paths_built step w req variables Hbuild)
    as [(res & e & _ & ->) | [[_ ->] | [(res & response & e & _ & _ & ->)
                                       | (res & response & _ & _ & ->)]]];
    cbn [worldOf].
  1-3: split; [done |]; exists []; split; [done | constructor].
  rewrite assertResponse_spec. cbn [fst snd].
  set (w2 := asserted response (Model.Step_Assertions step) _ (sent req w)).
  destruct (attachVariablesToContext_effects env response (Model.Step_Variables step) w2)
    as [-> (adds & -> & Hadds)].
  split; [done |].
  exists (((fun a => EvAssert a response) <$> Model.Step_Assertions step) ++ adds).
  split.
  - unfold w2, asserted, sent. cbn [trace]. rewrite firstn_all.
    by rewrite <- !app_assoc.
  - apply Forall_app. split.
    + apply Forall_fmap, Forall_forall. by intros a _.
    + eapply Forall_impl; [exact Hadds |]. by intros e (key & value & ->).
Qed.

(** X15. A Pause step returns no error and a result that has the kind
    Pause and the time measured around the sleep, and nothing else; it
    sends nothing, evaluates nothing and leaves the store as it was. It
    sleeps for the declared number of seconds exactly when that number is
    between -9223372036 and 9223372036: beyond, the count of nanoseconds
    wraps around. *)
Theorem run_pause step w :
  Model.Step_StepType step = Model.Pause ->
  exists result w' slept,
    Run env step w = Returned (result, None) w'
    /\ result
       = Model.mkResultStep ResultAssertion Model.Pause Rest.Request_zero
           Model.Response_zero
           (Time.Sub (wall env (S (ticks w))) (wall env (ticks w))) [] [] []
    /\ store w' = store w
    /\ ticks w' = S (S (ticks w))
    /\ trace w' = trace w ++ [EvSleep slept]
    /\ (slept = Model.Step_Duration step * 1000000000
        <-> -9223372036 <= Model.Step_Duration step <= 9223372036).
Proof.
  intros Hkind. unfold Run. rewrite Hkind. cbn [bool_decide decide_rel].
  rewrite bool_decide_eq_true_2 by done. unfold pause. cbn.
  eexists _, _, _. split; [reflexivity |]. repeat (split; [done |]).
  unfold Time.wrap64, Time.Second. split.
  - intros Heq.
    pose proof (Z.mod_pos_bound (Model.Step_Duration step * 1000000000 + 2 ^ 63)
                  (2 ^ 64) ltac:(done)).
    lia.
  - intros Hrange. rewrite Z.mod_small; lia.
Qed.

(** X16. A step that returns an error has changed no variable: whatever
    its kind and whatever failed, the store is as it was, and the result
    has no response, no assertion outcome and no created variable. *)
Theorem run_error_leaves_store step w result e w' :
  Run env step w = Returned (result, Some e) w' ->
  store w' = store w
  /\ Model.ResultStep_Response result = Model.Response_zero
  /\ Model.ResultStep_Assertion result = []
  /\ Model.ResultStep_VariableCreated result = [].
Proof.
  unfold Run. case_bool_decide as Hpause; [unfold pause; cbn; intros [=] |].
  case_bool_decide as Hrequest; [| by intros [= <- _ <-]].
  destruct (request_paths step w)
    as [(err & _ & ->) | (req & variables & _ &
          [(res & e' & _ & ->) | [[_ ->] | [(res & response & e' & _ & _ & ->)
                                           | (res & response & _ & _ & ->)]]])];
    intros [=]; by subst.
Qed.

(** X17. A Request step that returns no error leaves the store it found
    with the successful Created records of its result written over it, in
    order, and no other change: the variables created are all in the
    result. *)
Theorem run_success_store step w result w' :
  Model.Step_StepType step = Model.RequestStep ->
  Run env step w = Returned (result, None) w' ->
  store w' = insertAll (written (Model.ResultStep_VariableCreated result)) (store w)
  /\ Model.ResultStep_StepType result = Model.RequestStep
  /\ ticks w' = S (S (ticks w)).
Proof.
  intros Hkind. rewrite Run_request by done.
  destruct (request_paths step w)
    as [(err & _ & ->) | (req & variables & _ &
          [(res & e' & _ & ->) | [[_ ->] | [(res & response & e' & _ & _ & ->)
                                           | (res & response & _ & _ & ->)]]])];
    intros [=]. subst result w'. cbn [Model.ResultStep_VariableCreated
      Model.ResultStep_StepType].
  destruct (extraction_writes_its_records_aux env response (Model.Step_Variables step)
              (assertResponse env response (Model.Step_Assertions step)
                 (sent req w)).1) as (-> & _ & ->).
  rewrite assertResponse_spec. by cbn.
Qed.

End EngineMore.

(** ** The request as it is logged *)

Section PrintingMore.

Context {Assertion ResultAssertion : Type}.
Variable env : Collaborators Assertion ResultAssertion.

Lemma string_app_assoc (s1 s2 s3 : string) : (s1 +:+ s2) +:+ s3 = s1 +:+ (s2 +:+ s3).
Proof. induction s1 as [| c s1 IH]; [done | exact (f_equal (String c) IH)]. Qed.

Lemma string_app_nil_r (s : string) : s +:+ "" = s.
Proof. induction s as [| c s IH]; [done | exact (f_equal (String c) IH)]. Qed.

Lemma string_app_nonempty (s1 s2 : string) :
  s2 ≠ "" -> (String.length (s1 +:+ s2) =? 0)%nat = false.
Proof. intros Hs2. destruct s1; [by destruct s2 | done]. Qed.

(** Once the query string has begun, the loop only appends. *)
Lemma composeParams_begun (l : list (string * string)) (params : string) :
  (String.length params =? 0)%nat = false ->
  foldl (fun params kv =>
           let params :=
             if (String.length params =? 0)%nat
             then params +:+ "?" else params +:+ "&" in
           params +:+ keyValue kv) params l
  = params +:+ andPairs (keyValue <$> l).
Proof.
  revert params. induction l as [| kv l IH]; intros params Hbegun.
  - cbn. by rewrite string_app_nil_r.
  - cbn [foldl]. rewrite Hbegun. rewrite IH.
    + cbn [fmap list_fmap andPairs foldr]. fold (andPairs (keyValue <$> l)).
      by rewrite !string_app_assoc.
    + rewrite string_app_assoc. by apply string_app_nonempty.
Qed.

(** X18. The URL that is logged with the method of the request is the base
    URL, alone when the request has no query parameter, and otherwise
    followed by a question mark, the first parameter as [key=value], and
    every other parameter as [key=value] behind an ampersand, in the order
    in which the map is visited; keys and values are written as they are,
    without any escaping. *)
Theorem printRestRequest_url (req : Rest.Request)
    (appliedVar : list Model.ResultVariable) :
  printRestRequest env req appliedVar !! 1%nat
  = Some (LogInfo
            (Rest.Request_Method req +:+ " " +:+ Rest.Request_BaseURL req
               +:+ match keyValue <$> range env (Rest.Request_QueryParams req) with
                   | [] => ""
                   | first :: others => "?" +:+ first +:+ andPairs others
                   end)).
Proof.
  unfold printRestRequest. cbn [app lookup list_lookup]. do 4 f_equal.
  unfold composeParams.
  destruct (range env (Rest.Request_QueryParams req)) as [| kv l]; [done |].
  cbn [foldl fmap list_fmap String.length Nat.eqb].
  rewrite composeParams_begun by reflexivity.
  by rewrite !string_app_assoc.
Qed.

End PrintingMore.

(** ** The further properties on the sample inputs *)

(** X5: the extraction of the four declarations of the sample step leaves
    the variable [tok] as it was. *)
Lemma extraction_frame_witness :
  store (attachVariablesToContext Sample.online Sample.response
           (Model.Step_Variables Sample.step) Sample.w1).1 !! "tok"
  = Some "abc"%string.
Proof.
  rewrite (extraction_frame Sample.online Sample.response
             (Model.Step_Variables Sample.step) Sample.w1 "tok").
  - reflexivity.
  - cbn. rewrite !not_elem_of_cons. repeat split; try discriminate.
    apply not_elem_of_nil.
Defined.

(** X9: of the two declarations of [v], the second one is the one the
    store keeps. *)
Lemma extraction_last_write_wins_witness :
  store (attachVariablesToContext Sample.online Sample.response Cases.twice
           Sample.w0).1 !! "v"
  = Some "abc"%string.
Proof.
  apply (extraction_last_write_wins Sample.online Sample.response Cases.twice
           Sample.w0 [created "v" "200"] (created "v" "abc") []);
    [reflexivity | reflexivity | constructor].
Defined.

(** X10: the request built for the sample step. *)
Lemma built_request_contents_witness :
  exists req records,
    convertAndPatchToHttpRequest Sample.online Sample.step Sample.w1
    = (req, records, None)
    /\ Rest.Request_BaseURL req = "http://api/users"%string
    /\ Rest.Request_QueryParams req !! "id" = Some "7"%string
    /\ Rest.Request_Headers req !! "X-Trace" = Some "abc"%string
    /\ Rest.Request_Headers req !! "X-Auth" = Some "abc"%string
    /\ Rest.Request_Headers req !! "Accept" = Some "json"%string.
Proof.
  destruct (built_request_contents Sample.online (fun A m => reflexivity _)
              Sample.step Sample.w1 "http://api/users"
              (<["id" := "{{uid}}"%string]> (<["page" := "2"%string]> ∅)) eq_refl)
    as (req & records & Hbuild & _ & Hurl & _ & Hparams & Hheaders).
  exists req, records. split; [exact Hbuild |].
  rewrite Hurl, Hparams, !Hheaders. repeat split; vm_compute; reflexivity.
Defined.

(** X11: the header of the command line, resolved when it was merged, has
    no record; the templated header of the step has one. *)
Lemma header_record_iff_witness :
  ~ (exists r,
        r ∈ (convertAndPatchToHttpRequest Sample.online Sample.step Sample.w1).1.2
        /\ Model.ResultVariable_Key r = headerLabel "X-Trace")
  /\ exists r,
      r ∈ (convertAndPatchToHttpRequest Sample.online Sample.step Sample.w1).1.2
      /\ Model.ResultVariable_Key r = headerLabel "X-Auth".
Proof.
  split.
  - destruct (header_record_iff Sample.online (fun A m => reflexivity _)
                Sample.step Sample.w1 "http://api/users"
                (<["id" := "{{uid}}"%string]> (<["page" := "2"%string]> ∅))
                "X-Trace" eq_refl) as [Hconfig _].
    intros Hrecord. apply (Hconfig "{{tok}}"%string eq_refl) in Hrecord.
    apply Hrecord. vm_compute. reflexivity.
  - destruct (header_record_iff Sample.online (fun A m => reflexivity _)
                Sample.step Sample.w1 "http://api/users"
                (<["id" := "{{uid}}"%string]> (<["page" := "2"%string]> ∅))
                "X-Auth" eq_refl) as [_ Hstep].
    apply (Hstep "{{tok}}"%string ["other"%string] eq_refl eq_refl).
    vm_compute. discriminate.
Defined.

(** X12: an answer that cannot be decoded. *)
Lemma run_response_parse_failure_witness :
  exists result w',
    Run Cases.garbled Sample.step Sample.w1
    = Returned (result,
                Some "invalid character '<' looking for beginning of value"%string) w'
    /\ Model.ResultStep_StepTime result = 123600000
    /\ Model.ResultStep_Assertion result = []
    /\ Model.ResultStep_VariableCreated result = []
    /\ store w' = store Sample.w1.
Proof.
  destruct (run_response_parse_failure Cases.garbled Sample.step Sample.w1
              (convertAndPatchToHttpRequest Cases.garbled Sample.step Sample.w1).1.1
              (convertAndPatchToHttpRequest Cases.garbled Sample.step Sample.w1).1.2
              Sample.answer Model.Response_zero
              "invalid character '<' looking for beginning of value"%string)
    as (result & w' & Hrun & _ & _ & Htime & _ & Hassert & Hcreated & Hstore & _);
    [reflexivity | vm_compute; reflexivity | reflexivity | reflexivity |].
  exists result, w'. rewrite Htime.
  split; [exact Hrun |]. split; [vm_compute; reflexivity |].
  repeat (split; [assumption |]). assumption.
Defined.

(** X13: a transport that hands back nothing. *)
Lemma run_nil_response_panics_witness :
  exists w',
    Run Cases.mute Sample.step Sample.w1 = Panicked w'
    /\ store w' = store Sample.w1
    /\ ticks w' = 2%nat.
Proof.
  destruct (run_nil_response_panics Cases.mute Sample.step Sample.w1
              (convertAndPatchToHttpRequest Cases.mute Sample.step Sample.w1).1.1
              (convertAndPatchToHttpRequest Cases.mute Sample.step Sample.w1).1.2)
    as (w' & Hrun & Hstore & Hticks & _);
    [reflexivity | vm_compute; reflexivity | reflexivity |].
  exists w'. split; [exact Hrun |]. split; [exact Hstore | exact Hticks].
Defined.

(** X14: the sample step, answered, was sent once. *)
Lemma run_sends_once_witness :
  ticks (worldOf (Run Sample.online Sample.step Sample.w1)) = 2%nat
  /\ exists rest,
      trace (worldOf (Run Sample.online Sample.step Sample.w1))
      = trace Sample.w1
        ++ EvSend (convertAndPatchToHttpRequest Sample.online Sample.step Sample.w1).1.1
           :: rest
      /\ Forall (fun e => match e with
                          | EvAssert _ _ | EvAdd _ _ => True
                          | _ => False
                          end) rest.
Proof.
  apply (run_sends_once Sample.online Sample.step Sample.w1
           (convertAndPatchToHttpRequest Sample.online Sample.step Sample.w1).1.1
           (convertAndPatchToHttpRequest Sample.online Sample.step Sample.w1).1.2);
    [reflexivity | vm_compute; reflexivity].
Defined.

(** X15: a pause of two seconds. *)
Lemma run_pause_witness :
  exists result w',
    Run Sample.online Cases.pauseStep Sample.w1 = Returned (result, None) w'
    /\ Model.ResultStep_StepType result = Model.Pause
    /\ store w' = store Sample.w1
    /\ trace w' = [EvSleep 2000000000].
Proof.
  destruct (run_pause Sample.online Cases.pauseStep Sample.w1 eq_refl)
    as (result & w' & slept & Hrun & -> & Hstore & _ & Htrace & Hslept).
  eexists _, w'. split; [exact Hrun |]. split; [reflexivity |].
  split; [exact Hstore |].
  rewrite Htrace. rewrite (proj2 Hslept); [reflexivity |].
  vm_compute. split; discriminate.
Defined.

(** X16: the refused step has changed no variable. *)
Lemma run_error_leaves_store_witness :
  exists result w',
    Run Sample.refused Sample.step Sample.w1
    = Returned (result, Some "connection refused"%string) w'
    /\ store w' = store Sample.w1.
Proof.
  assert (Hrun : Run Sample.refused Sample.step Sample.w1
                 = Returned
                     (partialResult Sample.refused
                        (convertAndPatchToHttpRequest Sample.refused Sample.step
                           Sample.w1).1.1
                        (convertAndPatchToHttpRequest Sample.refused Sample.step
                           Sample.w1).1.2
                        Sample.w1, Some "connection refused"%string)
                     (sent (convertAndPatchToHttpRequest Sample.refused Sample.step
                              Sample.w1).1.1 Sample.w1)).
  { rewrite Run_request by reflexivity.
    apply (request_send_error Sample.refused Sample.step Sample.w1 _ _ None);
      [vm_compute; reflexivity | reflexivity]. }
  eexists _, _. split; [exact Hrun |].
  exact (proj1 (run_error_leaves_store Sample.refused Sample.step Sample.w1 _ _ _ Hrun)).
Defined.

(** X17: the sample step, answered, leaves its created variables in the
    store. *)
Lemma run_success_store_witness :
  exists result w',
    Run Sample.online Sample.step Sample.w1 = Returned (result, None) w'
    /\ store w'
       = insertAll (written (Model.ResultStep_VariableCreated result))
           (store Sample.w1).
Proof.
  assert (Hrun : exists result w',
             Run Sample.online Sample.step Sample.w1 = Returned (result, None) w').
  { rewrite Run_request by reflexivity.
    rewrite (request_response Sample.online Sample.step Sample.w1
               (convertAndPatchToHttpRequest Sample.online Sample.step Sample.w1).1.1
               (convertAndPatchToHttpRequest Sample.online Sample.step Sample.w1).1.2
               Sample.answer Sample.response);
      [by eexists _, _ | vm_compute; reflexivity | reflexivity | reflexivity]. }
  destruct Hrun as (result & w' & Hrun).
  exists result, w'. split; [exact Hrun |].
  exact (proj1 (run_success_store Sample.online Sample.step Sample.w1 result w'
                  eq_refl Hrun)).
Defined.
